(** * jsonpickle.handlers: the handler registry and the reduce-protocol handlers

    A shallow embedding of [jsonpickle/handlers.py]: the process-wide
    [Registry], the abstract [BaseHandler], and the two concrete handlers
    [DatetimeHandler] and [SimpleReduceHandler].

    The handlers talk to three collaborators that live outside the module:
    the pickler/unpickler bound as [self.context], the Python object model
    ([unicode(obj)], [obj.__reduce__()], calling a factory, [cls.__new__])
    and the standard [base64] codec.  The first two are taken as records of
    operations; the codec is written out after RFC 4648. *)

From Stdlib Require Import ZArith String Ascii List Lia.
From stdpp Require Import gmap strings list fin_maps.

#[local] Open Scope Z_scope.
#[local] Open Scope string_scope.

(* ===================================================================== *)
(** ** The base64 codec (RFC 4648, section 4) *)
(* ===================================================================== *)

(** Python's [base64.b64encode] / [base64.b64decode] with the standard
    alphabet.  A Python 2 [str] is a sequence of 8-bit characters, which is
    what [String.string] is; bytes are read as numbers in [0, 256). *)
Module Base64.

Definition alphabet : string :=
  "ABCDEFGHIJKLMNOPQRSTUVWXYZabcdefghijklmnopqrstuvwxyz0123456789+/".

Definition pad : ascii := "="%char.

Definition code (c : ascii) : Z := Z.of_N (N_of_ascii c).
Definition chr (n : Z) : ascii := ascii_of_N (Z.to_N n).

(** The character of a 6-bit value: its position in the alphabet. *)
Definition char_of (i : Z) : ascii :=
  nth (Z.to_nat i) (list_ascii_of_string alphabet) pad.

Fixpoint position (c : ascii) (l : list ascii) (k : Z) : option Z :=
  match l with
  | [] => None
  | x :: l' => if Ascii.eqb x c then Some k else position c l' (k + 1)
  end.

(** The 6-bit value of a character, when it belongs to the alphabet. *)
Definition index_of (c : ascii) : option Z :=
  position c (list_ascii_of_string alphabet) 0.

(** A full 24-bit group: three bytes give four characters. *)
Definition encode3 (a b c : ascii) : string :=
  let n := code a * 65536 + code b * 256 + code c in
  String (char_of (n / 262144))
    (String (char_of ((n / 4096) mod 64))
       (String (char_of ((n / 64) mod 64))
          (String (char_of (n mod 64)) ""))).

(** A final group of 16 bits: two zero bits are added on the right, the
    three characters are followed by one pad. *)
Definition encode2 (a b : ascii) : string :=
  let n := (code a * 256 + code b) * 4 in
  String (char_of (n / 4096))
    (String (char_of ((n / 64) mod 64))
       (String (char_of (n mod 64)) (String pad ""))).

(** A final group of 8 bits: four zero bits are added on the right, the
    two characters are followed by two pads. *)
Definition encode1 (a : ascii) : string :=
  let n := code a * 16 in
  String (char_of (n / 64))
    (String (char_of (n mod 64)) (String pad (String pad ""))).

Fixpoint encode (s : string) : string :=
  match s with
  | "" => ""
  | String a "" => encode1 a
  | String a (String b "") => encode2 a b
  | String a (String b (String c rest)) => encode3 a b c ++ encode rest
  end.

Definition decode3 (i0 i1 i2 i3 : Z) : string :=
  let n := i0 * 262144 + i1 * 4096 + i2 * 64 + i3 in
  String (chr (n / 65536))
    (String (chr ((n / 256) mod 256)) (String (chr (n mod 256)) "")).

Definition decode2 (i0 i1 i2 : Z) : string :=
  let n := (i0 * 4096 + i1 * 64 + i2) / 4 in
  String (chr (n / 256)) (String (chr (n mod 256)) "").

Definition decode1 (i0 i1 : Z) : string :=
  let n := (i0 * 64 + i1) / 16 in
  String (chr n) "".

(** Decoding reads groups of four characters; pads may only close the
    last group.  [None] is the decoding fault.  (Python's decoder also
    skips characters outside the alphabet; on what [encode] produces there
    are none.) *)
Fixpoint decode (s : string) : option string :=
  match s with
  | "" => Some ""
  | String c0 (String c1 (String c2 (String c3 rest))) =>
      match index_of c0, index_of c1 with
      | Some i0, Some i1 =>
          if Ascii.eqb c3 pad then
            match rest with
            | "" =>
                if Ascii.eqb c2 pad then Some (decode1 i0 i1)
                else match index_of c2 with
                     | Some i2 => Some (decode2 i0 i1 i2)
                     | None => None
                     end
            | _ => None
            end
          else
            match index_of c2, index_of c3, decode rest with
            | Some i2, Some i3, Some tl => Some (decode3 i0 i1 i2 i3 ++ tl)
            | _, _, _ => None
            end
      | _, _ => None
      end
  | _ => None
  end.

End Base64.

(* ===================================================================== *)
(** ** Python values, exceptions and the evaluation monad *)
(* ===================================================================== *)

(** The values that flow through the handlers: the JSON-compatible builtins
    of the intermediate tree, classes, and instances.  [PStr] is a byte
    string ([str]), [PUnicode] a text string given by its code points.  A
    [dict] of the tree has string keys.  Classes are identified by their
    qualified name; an instance is opaque to the handlers, which reach it
    only through the object model below. *)
#[warnings="-register-all"]
Inductive pyval : Type :=
| PNone
| PBool (b : bool)
| PInt (n : Z)
| PFloat (bits : Z)
| PStr (s : string)
| PUnicode (u : list Z)
| PTuple (xs : list pyval)
| PList (xs : list pyval)
| PDict (d : gmap string pyval)
| PClass (qualname : string)
| PObject (cls : string) (state : list pyval).

Inductive exn : Type :=
| NotImplementedError (msg : string)
| KeyError (key : pyval)
| IndexError
| TypeError
| ValueError
| UnicodeEncodeError
| Raised (name : string).

Inductive result (A : Type) : Type :=
| Ok (a : A)
| Raise (e : exn).
Arguments Ok {A} a.
Arguments Raise {A} e.

(** A computation over a mutable state [St] that may raise: the state
    reached so far survives an exception, as in Python. *)
Definition M (St A : Type) : Type := St -> result A * St.

Definition ret {St A} (a : A) : M St A := fun s => (Ok a, s).
Definition raise {St A} (e : exn) : M St A := fun s => (Raise e, s).
Definition bind {St A B} (m : M St A) (k : A -> M St B) : M St B :=
  fun s => match m s with
           | (Ok a, s') => k a s'
           | (Raise e, s') => (Raise e, s')
           end.
Definition pure {St A} (r : result A) : M St A := fun s => (r, s).

Declare Scope py_scope.
Delimit Scope py_scope with py.
Notation "x <- m ;; k" := (bind m (fun x => k))
  (at level 100, m at next level, right associativity) : py_scope.
#[local] Open Scope py_scope.

(** A list comprehension [[f(i) for i in xs]]: calls in list order. *)
Fixpoint mapM {St A B} (f : A -> M St B) (xs : list A) : M St (list B) :=
  match xs with
  | [] => ret []
  | x :: xs' => y <- f x ;; ys <- mapM f xs' ;; ret (y :: ys)
  end.

(** *** The builtin operations the handlers use *)
Module Py.

Definition chars (s : string) : list pyval :=
  map (fun c => PStr (String c "")) (list_ascii_of_string s).

(** [iter(v)]: what a [for] loop, a tuple unpacking or a [*args] call
    sees.  A dict yields its keys (in no particular order). *)
Definition iter (v : pyval) : result (list pyval) :=
  match v with
  | PTuple xs | PList xs => Ok xs
  | PStr s => Ok (chars s)
  | PUnicode u => Ok (map (fun c => PUnicode [c]) u)
  | PDict d => Ok (map (fun kv => PStr (fst kv)) (map_to_list d))
  | _ => Raise TypeError
  end.

(** [a, b = v] *)
Definition unpack2 (v : pyval) : result (pyval * pyval) :=
  match iter v with
  | Ok [a; b] => Ok (a, b)
  | Ok _ => Raise ValueError
  | Raise e => Raise e
  end.

(** [v[key]] for a string key. *)
Definition getitem (v : pyval) (key : string) : result pyval :=
  match v with
  | PDict d => match d !! key with
               | Some x => Ok x
               | None => Raise (KeyError (PStr key))
               end
  | _ => Raise TypeError
  end.

(** [v[0]] *)
Definition getitem0 (v : pyval) : result pyval :=
  match v with
  | PTuple xs | PList xs =>
      match xs with x :: _ => Ok x | [] => Raise IndexError end
  | PStr s =>
      match s with String c _ => Ok (PStr (String c "")) | "" => Raise IndexError end
  | PUnicode u =>
      match u with c :: _ => Ok (PUnicode [c]) | [] => Raise IndexError end
  | PDict _ => Raise (KeyError (PInt 0))
  | _ => Raise TypeError
  end.

(** [v[1:]] *)
Definition slice1 (v : pyval) : result pyval :=
  match v with
  | PTuple xs => Ok (PTuple (tail xs))
  | PList xs => Ok (PList (tail xs))
  | PStr s => Ok (PStr (match s with String _ s' => s' | "" => "" end))
  | PUnicode u => Ok (PUnicode (tail u))
  | _ => Raise TypeError
  end.

(** The implicit ASCII encoding Python 2 applies to a [unicode] where a
    byte string is expected. *)
Fixpoint ascii_encode (u : list Z) : option string :=
  match u with
  | [] => Some ""
  | c :: u' =>
      if ((0 <=? c)%Z && (c <? 128)%Z)%bool then
        match ascii_encode u' with
        | Some s => Some (String (Base64.chr c) s)
        | None => None
        end
      else None
  end.

Definition as_bytes (v : pyval) : result string :=
  match v with
  | PStr s => Ok s
  | PUnicode u => match ascii_encode u with
                  | Some s => Ok s
                  | None => Raise UnicodeEncodeError
                  end
  | _ => Raise TypeError
  end.

(** [base64.b64encode(v)] *)
Definition b64encode (v : pyval) : result pyval :=
  match as_bytes v with
  | Ok s => Ok (PStr (Base64.encode s))
  | Raise e => Raise e
  end.

(** [base64.b64decode(v)]; a decoding fault is a [TypeError]. *)
Definition b64decode (v : pyval) : result pyval :=
  match as_bytes v with
  | Ok s => match Base64.decode s with
            | Some b => Ok (PStr b)
            | None => Raise TypeError
            end
  | Raise e => Raise e
  end.

End Py.

(** *** The object model

    What Python does with an arbitrary object, as far as the handlers ask:
    [unicode(obj)], [obj.__reduce__()], the call of a factory on its arguments and
    [cls.__new__].  Each may raise. *)
Record ObjectModel : Type := {
  unicode : pyval -> result (list Z);
  reduce : pyval -> result pyval;
  call : pyval -> list pyval -> result pyval;
  new : pyval -> list pyval -> result pyval
}.

(** *** The context: the pickler or unpickler a handler is bound to

    [flatten] and [restore] take the value and the [reset] flag and run on
    the engine's own state [S]. *)
Module Context.
Record t (S : Type) : Type := {
  unpicklable : bool;
  flatten : pyval -> bool -> M S pyval;
  restore : pyval -> bool -> M S pyval
}.
Arguments unpicklable {S} _.
Arguments flatten {S} _ _ _.
Arguments restore {S} _ _ _.
End Context.

(** The state a [flatten(obj, data)] call runs on: the engine's state and
    the contents of the dict [data], which the caller passed by reference.
    The engine's own calls run on its state and leave [data] alone. *)
Record fstate (S : Type) : Type := {
  engine : S;
  data : gmap string pyval
}.
Arguments engine {S} _.
Arguments data {S} _.

Definition in_engine {S A} (m : M S A) : M (fstate S) A :=
  fun st => match m (engine st) with
            | (r, s') => (r, {| engine := s'; data := data st |})
            end.

(** [data[key] = v] *)
Definition setitem {S} (key : string) (v : pyval) : M (fstate S) unit :=
  fun st => (Ok tt, {| engine := engine st; data := <[key := v]> (data st) |}).

(** What [flatten] hands back: the very dict [data] it was given, or a
    value of its own. *)
Inductive flattened : Type :=
| TheData
| AValue (v : pyval).

(** The reconstruction marker. *)
Definition REDUCE : string := "__reduce__".

(* ===================================================================== *)
(** ** The registry *)
(* ===================================================================== *)

(** [class Registry]: one attribute, the dict [_handlers] from classes to
    handler classes.  A class is a dict key by identity, here its qualified
    name. *)
Module Registry.

Record t (H : Type) : Type := { _handlers : gmap string H }.
Arguments _handlers {H} _.

Definition __init__ {H} : t H := {| _handlers := ∅ |}.

Definition register {H} (self : t H) (cls : string) (handler : H) : t H :=
  {| _handlers := <[cls := handler]> (_handlers self) |}.

Definition get {H} (self : t H) (cls : string) : option H :=
  _handlers self !! cls.

End Registry.

(** The class hierarchy of the running program: the direct bases of each
    class.  [issubclass] is the reflexive-transitive closure. *)
Definition hierarchy : Type := string -> list string.

Inductive issubclass (bases : hierarchy) : string -> string -> Prop :=
| issubclass_refl c : issubclass bases c c
| issubclass_step c b a :
    In b (bases c) -> issubclass bases b a -> issubclass bases c a.

(* ===================================================================== *)
(** ** The handlers *)
(* ===================================================================== *)

(** [str(cls)] of a new-style class. *)
Definition class_str (qualname : string) : string :=
  "<class '" ++ qualname ++ "'>".

(** [class BaseHandler].  An instance holds its class and the [context]
    given to [__init__]; the two methods only look at the class. *)
Module BaseHandler.

Definition flatten {S} (self_class : string) (obj : pyval)
  : M (fstate S) flattened :=
  raise (NotImplementedError
           ("You must implement flatten() in " ++ class_str self_class)).

Definition restore {S} (self_class : string) (obj : pyval) : M S pyval :=
  raise (NotImplementedError
           ("You must implement restore() in " ++ class_str self_class)).

End BaseHandler.

(** [class DatetimeHandler(BaseHandler)] *)
Module DatetimeHandler.

Definition flatten {S} (om : ObjectModel) (context : Context.t S)
    (obj : pyval) : M (fstate S) flattened :=
  let pickler := context in
  if negb (Context.unpicklable pickler) then
    u <- pure (unicode om obj) ;;
    ret (AValue (PUnicode u))
  else
    r <- pure (reduce om obj) ;;
    ca <- pure (Py.unpack2 r) ;;
    let cls := fst ca in
    let args := snd ca in
    a0 <- pure (Py.getitem0 args) ;;
    payload <- pure (Py.b64encode a0) ;;
    tl <- pure (Py.slice1 args) ;;
    items <- pure (Py.iter tl) ;;
    rest <- in_engine (mapM (fun i => Context.flatten pickler i false) items) ;;
    let args := PList (payload :: rest) in
    fcls <- in_engine (Context.flatten pickler cls false) ;;
    _ <- setitem REDUCE (PTuple [fcls; args]) ;;
    ret TheData.

Definition restore {S} (om : ObjectModel) (context : Context.t S)
    (obj : pyval) : M S pyval :=
  m <- pure (Py.getitem obj REDUCE) ;;
  ca <- pure (Py.unpack2 m) ;;
  let cls := fst ca in
  let args := snd ca in
  a0 <- pure (Py.getitem0 args) ;;
  value <- pure (Py.b64decode a0) ;;
  let unpickler := context in
  cls <- Context.restore unpickler cls false ;;
  tl <- pure (Py.slice1 args) ;;
  items <- pure (Py.iter tl) ;;
  rest <- mapM (fun i => Context.restore unpickler i false) items ;;
  let params := value :: rest in
  pure (new om cls params).

End DatetimeHandler.

(** [class SimpleReduceHandler(BaseHandler)] *)
Module SimpleReduceHandler.

Definition flatten {S} (om : ObjectModel) (context : Context.t S)
    (obj : pyval) : M (fstate S) flattened :=
  let pickler := context in
  if negb (Context.unpicklable pickler) then
    u <- pure (unicode om obj) ;;
    ret (AValue (PUnicode u))
  else
    r <- pure (reduce om obj) ;;
    items <- pure (Py.iter r) ;;
    flat <- in_engine (mapM (fun i => Context.flatten pickler i false) items) ;;
    _ <- setitem REDUCE (PList flat) ;;
    ret TheData.

Definition restore {S} (om : ObjectModel) (context : Context.t S)
    (obj : pyval) : M S pyval :=
  let unpickler := context in
  m <- pure (Py.getitem obj REDUCE) ;;
  items <- pure (Py.iter m) ;;
  restored <- mapM (fun i => Context.restore unpickler i false) items ;;
  fa <- pure (Py.unpack2 (PList restored)) ;;
  let factory := fst fa in
  let args := snd fa in
  star <- pure (Py.iter args) ;;
  pure (call om factory star).

End SimpleReduceHandler.

(** A handler class: its name and the methods its body defines.  A method
    the body leaves out is inherited from [BaseHandler]. *)
Record handler_class (S : Type) : Type := {
  hc_name : string;
  hc_flatten :
    option (ObjectModel -> Context.t S -> pyval -> M (fstate S) flattened);
  hc_restore : option (ObjectModel -> Context.t S -> pyval -> M S pyval)
}.
Arguments hc_name {S} _.
Arguments hc_flatten {S} _.
Arguments hc_restore {S} _.

(** [handler(context).flatten(obj, data)] and [handler(context).restore(obj)]
    by attribute lookup on the class, then on its base. *)
Definition call_flatten {S} (h : handler_class S) (om : ObjectModel)
    (context : Context.t S) (obj : pyval) : M (fstate S) flattened :=
  match hc_flatten h with
  | Some method => method om context obj
  | None => BaseHandler.flatten (hc_name h) obj
  end.

Definition call_restore {S} (h : handler_class S) (om : ObjectModel)
    (context : Context.t S) (obj : pyval) : M S pyval :=
  match hc_restore h with
  | Some method => method om context obj
  | None => BaseHandler.restore (hc_name h) obj
  end.

Definition BaseHandler_class {S} : handler_class S :=
  {| hc_name := "jsonpickle.handlers.BaseHandler";
     hc_flatten := None;
     hc_restore := None |}.

Definition DatetimeHandler_class {S} : handler_class S :=
  {| hc_name := "jsonpickle.handlers.DatetimeHandler";
     hc_flatten := Some DatetimeHandler.flatten;
     hc_restore := Some DatetimeHandler.restore |}.

Definition SimpleReduceHandler_class {S} : handler_class S :=
  {| hc_name := "jsonpickle.handlers.SimpleReduceHandler";
     hc_flatten := Some SimpleReduceHandler.flatten;
     hc_restore := Some SimpleReduceHandler.restore |}.

(** *** The module-level registry and the registrations made at import *)

(** [sys.version_info >= (2, 7)], on the major and minor numbers. *)
Definition at_least_2_7 (version_info : Z * Z) : bool :=
  ((2 <? fst version_info)
   || ((fst version_info =? 2) && (7 <=? snd version_info)))%bool%Z.

Definition registry {S} (version_info : Z * Z)
  : Registry.t (handler_class S) :=
  let r := Registry.__init__ in
  let r := Registry.register r "datetime.datetime" DatetimeHandler_class in
  let r := Registry.register r "datetime.date" DatetimeHandler_class in
  let r := Registry.register r "datetime.time" DatetimeHandler_class in
  let r := Registry.register r "time.struct_time" SimpleReduceHandler_class in
  let r := Registry.register r "datetime.timedelta" SimpleReduceHandler_class in
  if at_least_2_7 version_info
  then Registry.register r "collections.OrderedDict" SimpleReduceHandler_class
  else r.

(** [register = registry.register] and [get = registry.get], on the
    registry as it stands. *)
Definition register {H} := @Registry.register H.
Definition get {H} := @Registry.get H.

(** Whether a value is a mapping that has the given key. *)
Definition has_key (v : pyval) (key : string) : bool :=
  match v with
  | PDict d => match d !! key with Some _ => true | None => false end
  | _ => false
  end.

(** The same for what [flatten] returned, reading [data] off the state. *)
Definition returned {S} (r : flattened) (st : fstate S) : pyval :=
  match r with
  | TheData => PDict (data st)
  | AValue v => v
  end.

(** A sequence of exactly two elements. *)
Definition is_pair (v : pyval) : Prop :=
  exists a b, v = PTuple [a; b] \/ v = PList [a; b].

(** The engine flattens [x] whatever state it is in. *)
Definition flattens {S} (context : Context.t S) (x : pyval) : Prop :=
  forall s, exists y s', Context.flatten context x false s = (Ok y, s').

(** The engine flattens [x], and restores [x] from what it produced. *)
Definition round_trips {S} (context : Context.t S) (x : pyval) : Prop :=
  forall s, exists y s',
    Context.flatten context x false s = (Ok y, s') /\
    forall t, exists t', Context.restore context y false t = (Ok x, t').

(** [fx] is what the engine made of [x] in some call. *)
Definition encoded_by {S} (context : Context.t S) (x fx : pyval) : Prop :=
  exists s s', Context.flatten context x false s = (Ok fx, s').

(** The classes registered with [DatetimeHandler] at import, and those
    registered with [SimpleReduceHandler]. *)
Definition temporal_types : list string :=
  ["datetime.datetime"; "datetime.date"; "datetime.time"].

Definition reduce_types : list string :=
  ["time.struct_time"; "datetime.timedelta"; "collections.OrderedDict"].

(** What the round trip of a value [v] of class [T] asks of the
    collaborators.  [v] decomposes into a pair of a factory and an argument
    tuple, and the engine round-trips the parts it is handed.  For the
    temporal classes the first argument is the byte payload and
    [factory.__new__] on the arguments gives [v] back; for the others the
    call of the factory on the arguments does. *)
Inductive reconstructible {S} (om : ObjectModel) (context : Context.t S)
  : string -> pyval -> Prop :=
| by_payload T v cls payload rest :
    In T temporal_types ->
    reduce om v = Ok (PTuple [cls; PTuple (PStr payload :: rest)]) ->
    round_trips context cls ->
    Forall (round_trips context) rest ->
    new om cls (PStr payload :: rest) = Ok v ->
    reconstructible om context T v
| by_factory T v factory args :
    ~ In T temporal_types ->
    reduce om v = Ok (PTuple [factory; PTuple args]) ->
    round_trips context factory ->
    round_trips context (PTuple args) ->
    call om factory args = Ok v ->
    reconstructible om context T v.

(** An object model that differs only in what calling a class does. *)
Definition with_call (om : ObjectModel)
    (call' : pyval -> list pyval -> result pyval) : ObjectModel :=
  {| unicode := unicode om; reduce := reduce om; call := call';
     new := new om |}.

(* ===================================================================== *)
(** ** A small concrete world to run the handlers in *)
(* ===================================================================== *)

Module Demo.

Definition bytes (l : list Z) : string :=
  string_of_list_ascii (map Base64.chr l).

Definition text (s : string) : list Z :=
  map Base64.code (list_ascii_of_string s).

(** Instances carry their class and the rest of their decomposition;
    factories and [__new__] build from an argument tuple. *)
Definition om : ObjectModel :=
  {| unicode v :=
       match v with
       | PObject c _ => Ok (text c)
       | _ => Raise TypeError
       end;
     reduce v :=
       match v with
       | PObject c st => Ok (PTuple (PClass c :: st))
       | _ => Raise TypeError
       end;
     call f args :=
       match f with
       | PClass c => Ok (PObject c [PTuple args])
       | _ => Raise TypeError
       end;
     new cls params :=
       match cls with
       | PClass c => Ok (PObject c [PTuple params])
       | _ => Raise TypeError
       end |}.

Definition TYPE : string := "py/type".

Definition tag (v : pyval) : pyval :=
  match v with
  | PClass c => PDict {[TYPE := PStr c]}
  | _ => v
  end.

Definition untag (v : pyval) : pyval :=
  match v with
  | PDict d => match d !! TYPE with
               | Some (PStr c) => PClass c
               | _ => v
               end
  | _ => v
  end.

(** An engine that writes classes as tagged dicts, leaves the builtins
    as they are and counts its calls. *)
Definition context (unpicklable : bool) : Context.t nat :=
  {| Context.unpicklable := unpicklable;
     Context.flatten v reset n := (Ok (tag v), S n);
     Context.restore v reset n := (Ok (untag v), S n) |}.

Definition start : fstate nat := {| engine := 0%nat; data := ∅ |}.

(** A [datetime.date] with the payload of the recorded instant. *)
Definition payload0 : string := bytes [7; 231; 0; 1; 1; 0; 0; 0; 0].
Definition T0 : pyval := PObject "datetime.date" [PTuple [PStr payload0]].

(** A [datetime.timedelta] of one day. *)
Definition one_day : pyval :=
  PObject "datetime.timedelta" [PTuple [PInt 1; PInt 0; PInt 0]].

(** An instance of an application class that pickles with a state: its
    decomposition has a third element, the instance dict. *)
Definition account : pyval :=
  PObject "app.Account"
    [PTuple [PStr "alice"]; PDict {["balance" := PInt 10]}].

(** A handler class whose body defines neither method. *)
Definition Forgetful : handler_class nat :=
  {| hc_name := "app.Forgetful"; hc_flatten := None; hc_restore := None |}.

(** [datetime.datetime] derives from [datetime.date]. *)
Definition bases : hierarchy :=
  fun c => if String.eqb c "datetime.datetime" then ["datetime.date"]
           else ["object"].

End Demo.

(* ===================================================================== *)
(** ** Further vocabulary for the properties below *)
(* ===================================================================== *)

(** A run of [register] calls, in program order. *)
Definition register_all {H} (r : Registry.t H) (calls : list (string * H))
  : Registry.t H :=
  fold_left (fun r call => Registry.register r (fst call) (snd call)) calls r.

(** The handler of the last call of a run that names [cls], if any. *)
Definition last_binding {H} (cls : string) (calls : list (string * H))
  : option H :=
  fold_left (fun found call =>
               if String.eqb (fst call) cls then Some (snd call) else found)
            calls None.

(** An object model that differs only in what [__new__] does. *)
Definition with_new (om : ObjectModel)
    (new' : pyval -> list pyval -> result pyval) : ObjectModel :=
  {| unicode := unicode om; reduce := reduce om; call := call om;
     new := new' |}.


(** The engine restores whatever it is handed, in whatever state. *)
Definition restores_all {S} (context : Context.t S) : Prop :=
  forall y t, exists x t', Context.restore context y false t = (Ok x, t').


(** An engine that keeps a log of the values it is handed, in order, and
    hands each one back as it is. *)
Definition recorder (unpicklable : bool) : Context.t (list pyval) :=
  {| Context.unpicklable := unpicklable;
     Context.flatten v reset log := (Ok v, (log ++ [v])%list);
     Context.restore v reset log := (Ok v, (log ++ [v])%list) |}.

(** An engine like [Demo.context] that cannot flatten a dict. *)
Definition no_dicts (unpicklable : bool) : Context.t nat :=
  {| Context.unpicklable := unpicklable;
     Context.flatten v reset n :=
       match v with
       | PDict _ => (Raise (Raised "PicklingError"), S n)
       | _ => (Ok (Demo.tag v), S n)
       end;
     Context.restore v reset n := (Ok (Demo.untag v), S n) |}.

(** The engine restores the values [ys] one after the other, from left to
    right, starting in state [t]: they come back as [xs], and the engine
    ends in state [t']. *)
Inductive restores_to {S} (context : Context.t S)
  : list pyval -> list pyval -> S -> S -> Prop :=
| restores_none t : restores_to context [] [] t t
| restores_next y ys x xs t t1 t2 :
    Context.restore context y false t = (Ok x, t1) ->
    restores_to context ys xs t1 t2 ->
    restores_to context (y :: ys) (x :: xs) t t2.

(** An [OrderedDict] that carries an instance attribute.  Its
    [__reduce__()] returns three elements: the class, the argument tuple
    with the items, and the instance dict. *)
Definition noted_odict : pyval :=
  PObject "collections.OrderedDict"
    [PTuple [PList []]; PDict {["note" := PInt 1]}].

(* ===================================================================== *)
(** ** The codec is lossless *)
(* ===================================================================== *)

Section Base64Facts.
Import Base64.

Lemma code_range c : 0 <= code c < 256.
Proof.
  unfold code. pose proof (N_ascii_bounded c). lia.
Qed.

Lemma chr_code c : chr (code c) = c.
Proof.
  unfold chr, code. rewrite N2Z.id. apply ascii_N_embedding.
Qed.

(** Every 6-bit value can be written as a numeral below 64. *)
Lemma sextet_cases i : 0 <= i < 64 -> exists n, (n < 64)%nat /\ i = Z.of_nat n.
Proof.
  intros Hi. exists (Z.to_nat i). split; lia.
Qed.

Lemma index_of_char_of i : 0 <= i < 64 -> index_of (char_of i) = Some i.
Proof.
  intros Hi. destruct (sextet_cases i Hi) as (n & Hn & ->).
  do 64 (destruct n as [|n]; [vm_compute; reflexivity|]). lia.
Qed.

Lemma char_of_not_pad i : 0 <= i < 64 -> Ascii.eqb (char_of i) pad = false.
Proof.
  intros Hi. destruct (sextet_cases i Hi) as (n & Hn & ->).
  do 64 (destruct n as [|n]; [vm_compute; reflexivity|]). lia.
Qed.

Lemma decode3_encode3 a b c :
  let n := code a * 65536 + code b * 256 + code c in
  decode3 (n / 262144) ((n / 4096) mod 64) ((n / 64) mod 64) (n mod 64)
  = String a (String b (String c "")).
Proof.
  intros n. subst n. unfold decode3.
  pose proof (code_range a). pose proof (code_range b).
  pose proof (code_range c).
  set (n := code a * 65536 + code b * 256 + code c).
  set (m := n / 262144 * 262144 + (n / 4096) mod 64 * 4096
            + (n / 64) mod 64 * 64 + n mod 64).
  assert (Hm : m = n) by (subst m n; Z.div_mod_to_equations; lia).
  rewrite Hm. subst n.
  replace ((code a * 65536 + code b * 256 + code c) / 65536) with (code a)
    by (Z.div_mod_to_equations; lia).
  replace (((code a * 65536 + code b * 256 + code c) / 256) mod 256)
    with (code b) by (Z.div_mod_to_equations; lia).
  replace ((code a * 65536 + code b * 256 + code c) mod 256) with (code c)
    by (Z.div_mod_to_equations; lia).
  now rewrite !chr_code.
Qed.

Lemma decode2_encode2 a b :
  let n := (code a * 256 + code b) * 4 in
  decode2 (n / 4096) ((n / 64) mod 64) (n mod 64)
  = String a (String b "").
Proof.
  intros n. subst n. unfold decode2.
  pose proof (code_range a). pose proof (code_range b).
  set (n := (code a * 256 + code b) * 4).
  replace ((n / 4096 * 4096 + (n / 64) mod 64 * 64 + n mod 64) / 4)
    with (code a * 256 + code b)
    by (subst n; Z.div_mod_to_equations; lia).
  replace ((code a * 256 + code b) / 256) with (code a)
    by (Z.div_mod_to_equations; lia).
  replace ((code a * 256 + code b) mod 256) with (code b)
    by (Z.div_mod_to_equations; lia).
  now rewrite !chr_code.
Qed.

Lemma decode1_encode1 a :
  let n := code a * 16 in
  decode1 (n / 64) (n mod 64) = String a "".
Proof.
  intros n. subst n. unfold decode1.
  pose proof (code_range a).
  replace ((code a * 16 / 64 * 64 + (code a * 16) mod 64) / 16)
    with (code a) by (Z.div_mod_to_equations; lia).
  now rewrite chr_code.
Qed.

Lemma decode_full_group c0 c1 c2 c3 rest i0 i1 i2 i3 :
  index_of c0 = Some i0 -> index_of c1 = Some i1 ->
  index_of c2 = Some i2 -> index_of c3 = Some i3 ->
  Ascii.eqb c3 pad = false ->
  decode (String c0 (String c1 (String c2 (String c3 rest))))
  = match decode rest with
    | Some tl => Some (decode3 i0 i1 i2 i3 ++ tl)
    | None => None
    end.
Proof.
  intros H0 H1 H2 H3 Hp. cbn [decode]. now rewrite H0, H1, H2, H3, Hp.
Qed.

Lemma decode_two_pads c0 c1 i0 i1 :
  index_of c0 = Some i0 -> index_of c1 = Some i1 ->
  decode (String c0 (String c1 (String pad (String pad ""))))
  = Some (decode1 i0 i1).
Proof.
  intros H0 H1. cbn [decode]. now rewrite H0, H1.
Qed.

Lemma decode_one_pad c0 c1 c2 i0 i1 i2 :
  index_of c0 = Some i0 -> index_of c1 = Some i1 ->
  index_of c2 = Some i2 -> Ascii.eqb c2 pad = false ->
  decode (String c0 (String c1 (String c2 (String pad ""))))
  = Some (decode2 i0 i1 i2).
Proof.
  intros H0 H1 H2 Hp. cbn [decode]. now rewrite H0, H1, H2, Hp.
Qed.

Ltac sextet := Z.div_mod_to_equations; lia.

Lemma decode_encode_upto n :
  forall s, (String.length s <= n)%nat -> decode (encode s) = Some s.
Proof.
  induction n as [|n IH]; intros s Hlen.
  - destruct s; [reflexivity | simpl in Hlen; lia].
  - destruct s as [|a [|b [|c rest]]].
    + reflexivity.
    + pose proof (code_range a).
      cbn [encode]. unfold encode1.
      rewrite (decode_two_pads _ _ (code a * 16 / 64) ((code a * 16) mod 64))
        by (apply index_of_char_of; sextet).
      now rewrite decode1_encode1.
    + pose proof (code_range a). pose proof (code_range b).
      cbn [encode]. unfold encode2.
      set (k := (code a * 256 + code b) * 4).
      rewrite (decode_one_pad _ _ _ (k / 4096) ((k / 64) mod 64) (k mod 64))
        by (first [apply index_of_char_of | apply char_of_not_pad];
            subst k; sextet).
      subst k. now rewrite decode2_encode2.
    + pose proof (code_range a). pose proof (code_range b).
      pose proof (code_range c).
      cbn [encode]. unfold encode3.
      set (k := code a * 65536 + code b * 256 + code c).
      lazy beta iota delta [String.append].
      rewrite (decode_full_group _ _ _ _ _ (k / 262144) ((k / 4096) mod 64)
                 ((k / 64) mod 64) (k mod 64))
        by (first [apply index_of_char_of | apply char_of_not_pad];
            subst k; sextet).
      rewrite IH by (simpl in Hlen; lia).
      subst k. now rewrite decode3_encode3.
Qed.

(** Decoding an encoding gives the bytes back, whatever they are. *)
Lemma decode_encode s : decode (encode s) = Some s.
Proof. apply (decode_encode_upto (String.length s)). lia. Qed.

End Base64Facts.

(** The payload of the recorded instant, encoded. *)
Example encode_payload0 : Base64.encode Demo.payload0 = "B+cAAQEAAAAA".
Proof. vm_compute. reflexivity. Qed.

(* ===================================================================== *)
(** ** Running the handlers *)
(* ===================================================================== *)

Section Runs.
Context {S : Type}.
Variable om : ObjectModel.
Variable context : Context.t S.

Lemma in_engine_run {A} (m : M S A) (st : fstate S) r s' :
  m (engine st) = (r, s') ->
  in_engine m st = (r, {| engine := s'; data := data st |}).
Proof. intros H. unfold in_engine. now rewrite H. Qed.

Lemma mapM_round_trips xs :
  Forall (round_trips context) xs ->
  forall s, exists ys s',
    mapM (fun i => Context.flatten context i false) xs s = (Ok ys, s') /\
    forall t, exists t',
      mapM (fun i => Context.restore context i false) ys t = (Ok xs, t').
Proof.
  induction 1 as [|x xs Hx _ IH]; intros s.
  - exists [], s. split; [reflexivity|]. intros t. now exists t.
  - destruct (Hx s) as (y & s1 & Hy & Hback).
    destruct (IH s1) as (ys & s2 & Hys & Hbacks).
    exists (y :: ys), s2. split.
    + cbn [mapM]. unfold bind at 1. rewrite Hy.
      unfold bind at 1. now rewrite Hys.
    + intros t. destruct (Hback t) as (t1 & Ht1).
      destruct (Hbacks t1) as (t2 & Ht2). exists t2.
      cbn [mapM]. unfold bind at 1. rewrite Ht1.
      unfold bind at 1. now rewrite Ht2.
Qed.

Lemma mapM_flattens xs :
  Forall (flattens context) xs ->
  forall s, exists ys s',
    mapM (fun i => Context.flatten context i false) xs s = (Ok ys, s') /\
    length ys = length xs.
Proof.
  induction 1 as [|x xs Hx _ IH]; intros s.
  - now exists [], s.
  - destruct (Hx s) as (y & s1 & Hy).
    destruct (IH s1) as (ys & s2 & Hys & Hlen).
    exists (y :: ys), s2. split.
    + cbn [mapM]. unfold bind at 1. rewrite Hy.
      unfold bind at 1. now rewrite Hys.
    + simpl. now rewrite Hlen.
Qed.
Lemma datetime_flatten_run v cls payload rest st frest s1 fcls s2 :
  Context.unpicklable context = true ->
  reduce om v = Ok (PTuple [cls; PTuple (PStr payload :: rest)]) ->
  mapM (fun i => Context.flatten context i false) rest (engine st)
    = (Ok frest, s1) ->
  Context.flatten context cls false s1 = (Ok fcls, s2) ->
  DatetimeHandler.flatten om context v st
  = (Ok TheData,
     {| engine := s2;
        data := <[REDUCE := PTuple [fcls; PList (PStr (Base64.encode payload)
                                                   :: frest)]]> (data st) |}).
Proof.
  intros Hunp Hred Hrest Hcls.
  unfold DatetimeHandler.flatten. rewrite Hunp, Hred.
  cbn [negb]. unfold bind, pure.
  cbn [Py.unpack2 Py.iter fst snd Py.getitem0 Py.b64encode Py.as_bytes
       Py.slice1 tail].
  rewrite (in_engine_run _ _ _ _ Hrest).
  rewrite (in_engine_run _ {| engine := s1; data := data st |} _ _ Hcls).
  reflexivity.
Qed.

Lemma datetime_restore_run d fcls enc frest payload t cls t1 rest t2 :
  d !! REDUCE = Some (PTuple [fcls; PList (PStr enc :: frest)]) ->
  Base64.decode enc = Some payload ->
  Context.restore context fcls false t = (Ok cls, t1) ->
  mapM (fun i => Context.restore context i false) frest t1 = (Ok rest, t2) ->
  DatetimeHandler.restore om context (PDict d) t
  = (new om cls (PStr payload :: rest), t2).
Proof.
  intros Hd Hdec Hcls Hrest.
  unfold DatetimeHandler.restore, bind, pure.
  cbn [Py.getitem]. rewrite Hd.
  cbn [Py.unpack2 Py.iter fst snd Py.getitem0 Py.b64decode Py.as_bytes
       Py.slice1 tail].
  rewrite Hdec, Hcls, Hrest. reflexivity.
Qed.

Lemma simple_flatten_run v items st flat s1 r :
  Context.unpicklable context = true ->
  reduce om v = Ok r ->
  Py.iter r = Ok items ->
  mapM (fun i => Context.flatten context i false) items (engine st)
    = (Ok flat, s1) ->
  SimpleReduceHandler.flatten om context v st
  = (Ok TheData,
     {| engine := s1; data := <[REDUCE := PList flat]> (data st) |}).
Proof.
  intros Hunp Hred Hit Hflat.
  unfold SimpleReduceHandler.flatten. rewrite Hunp, Hred.
  cbn [negb]. unfold bind, pure. rewrite Hit.
  rewrite (in_engine_run _ _ _ _ Hflat). reflexivity.
Qed.

Lemma simple_restore_run d m items t factory args star t1 :
  d !! REDUCE = Some m ->
  Py.iter m = Ok items ->
  mapM (fun i => Context.restore context i false) items t
    = (Ok [factory; args], t1) ->
  Py.iter args = Ok star ->
  SimpleReduceHandler.restore om context (PDict d) t
  = (call om factory star, t1).
Proof.
  intros Hd Hit Hres Hstar.
  unfold SimpleReduceHandler.restore, bind, pure.
  cbn [Py.getitem]. rewrite Hd, Hit, Hres.
  cbn [Py.unpack2 Py.iter fst snd]. rewrite Hstar. reflexivity.
Qed.
End Runs.



(* ===================================================================== *)
(** ** The registry *)
(* ===================================================================== *)

Section RegistryFacts.
Context {H : Type}.
Implicit Types (r : Registry.t H) (T U : string) (A B : H).

Lemma get_register_same r T A : Registry.get (Registry.register r T A) T = Some A.
Proof. unfold Registry.get, Registry.register. cbn. apply lookup_insert_eq. Qed.

Lemma get_register_other r T U A :
  T ≠ U -> Registry.get (Registry.register r T A) U = Registry.get r U.
Proof.
  intros Hne. unfold Registry.get, Registry.register. cbn.
  now apply lookup_insert_ne.
Qed.

(** C5: registering [B] for [T] after [A] makes the lookup of [T] return
    [B]; the registry is then the one in which [A] was never registered,
    and [register] is a total function. *)
Theorem register_last_write_wins r T A B :
  Registry.get (Registry.register (Registry.register r T A) T B) T = Some B
  /\ Registry.register (Registry.register r T A) T B
     = Registry.register r T B.
Proof.
  split.
  - apply get_register_same.
  - unfold Registry.register. cbn. f_equal. apply insert_insert_eq.
Qed.

(** C6: the lookup is by the exact class.  Whatever the class hierarchy,
    registering a handler for [T] leaves a proper subclass [S'] that has
    no handler of its own without one, and the miss is the value [None]. *)
Theorem get_is_exact_type (bases : hierarchy) r T S' A :
  issubclass bases S' T -> S' ≠ T ->
  Registry.get r S' = None ->
  Registry.get (Registry.register r T A) S' = None.
Proof.
  intros _ Hne Hnone. rewrite get_register_other by congruence. exact Hnone.
Qed.
End RegistryFacts.

Section DefaultRegistry.
Context {S : Type}.

Lemma registry_get version T (h : handler_class S) :
  Registry.get (registry version) T = Some h ->
  (In T temporal_types /\ h = DatetimeHandler_class)
  \/ (~ In T temporal_types /\ h = SimpleReduceHandler_class).
Proof.
  unfold registry, Registry.get, Registry.register, Registry.__init__.
  intros Hget.
  assert (Hnot : forall U, In U reduce_types -> ~ In U temporal_types).
  { intros U HU HT. simpl in HU, HT.
    repeat match goal with
           | H : _ \/ _ |- _ => destruct H
           | H : False |- _ => destruct H
           end; subst; discriminate. }
  destruct (at_least_2_7 version); cbn [Registry._handlers] in Hget;
    repeat (rewrite lookup_insert in Hget; case_decide;
            [ subst T; injection Hget as <-;
              first [ left; split; [simpl; tauto | reflexivity]
                    | right; split; [apply Hnot; simpl; tauto | reflexivity] ]
            | ]);
    rewrite lookup_empty in Hget; discriminate.
Qed.

(** From Python 2.7 on, each of the six classes is bound at import. *)
Lemma registry_binds_defaults version T :
  at_least_2_7 version = true ->
  In T (temporal_types ++ reduce_types) ->
  exists h : handler_class S, Registry.get (registry version) T = Some h.
Proof.
  intros Hv HT. unfold registry. rewrite Hv.
  simpl in HT.
  repeat match goal with
         | H : _ \/ _ |- _ => destruct H
         | H : False |- _ => destruct H
         end; subst T; eexists; reflexivity.
Qed.
End DefaultRegistry.


Section RoundTrip.
Context {S : Type}.
Variable om : ObjectModel.
Variable context : Context.t S.

Lemma datetime_round_trip v cls payload rest st :
  Context.unpicklable context = true ->
  reduce om v = Ok (PTuple [cls; PTuple (PStr payload :: rest)]) ->
  round_trips context cls ->
  Forall (round_trips context) rest ->
  new om cls (PStr payload :: rest) = Ok v ->
  exists st',
    DatetimeHandler.flatten om context v st = (Ok TheData, st') /\
    forall t, exists t',
      DatetimeHandler.restore om context (PDict (data st')) t = (Ok v, t').
Proof.
  intros Hunp Hred Hcls Hrest Hnew.
  destruct (mapM_round_trips context rest Hrest (engine st))
    as (frest & s1 & Hfrest & Hback).
  destruct (Hcls s1) as (fcls & s2 & Hfcls & Hcback).
  eexists. split.
  - eapply datetime_flatten_run; eassumption.
  - intros t. cbn [data].
    destruct (Hcback t) as (t1 & Ht1). destruct (Hback t1) as (t2 & Ht2).
    exists t2. rewrite <- Hnew.
    eapply datetime_restore_run; try eassumption.
    + apply lookup_insert_eq.
    + apply decode_encode.
Qed.

Lemma simple_round_trip v factory args st :
  Context.unpicklable context = true ->
  reduce om v = Ok (PTuple [factory; PTuple args]) ->
  round_trips context factory ->
  round_trips context (PTuple args) ->
  call om factory args = Ok v ->
  exists st',
    SimpleReduceHandler.flatten om context v st = (Ok TheData, st') /\
    forall t, exists t',
      SimpleReduceHandler.restore om context (PDict (data st')) t
      = (Ok v, t').
Proof.
  intros Hunp Hred Hfac Hargs Hcall.
  assert (Hall : Forall (round_trips context) [factory; PTuple args])
    by (repeat constructor; assumption).
  destruct (mapM_round_trips context _ Hall (engine st))
    as (flat & s1 & Hflat & Hback).
  eexists. split.
  - eapply simple_flatten_run; try eassumption. reflexivity.
  - intros t. cbn [data]. destruct (Hback t) as (t1 & Ht1).
    exists t1. rewrite <- Hcall.
    eapply simple_restore_run; try eassumption.
    + apply lookup_insert_eq.
    + reflexivity.
    + reflexivity.
Qed.

(** Where the round trip does hold: for a class [T] registered at import
    with handler [h] and a value [v] of it whose decomposition is a pair
    that the collaborators honour, flattening with [unpicklable] set and
    restoring what was written gives a value equal to [v]. *)
Theorem round_trip_default_types version T h v st :
  Registry.get (registry version) T = Some h ->
  Context.unpicklable context = true ->
  reconstructible om context T v ->
  exists st',
    call_flatten h om context v st = (Ok TheData, st') /\
    forall t, exists t',
      call_restore h om context (returned TheData st') t = (Ok v, t').
Proof.
  intros Hget Hunp Hrec.
  destruct (registry_get _ _ _ Hget) as [[HT ->] | [HT ->]];
    unfold call_flatten, call_restore, returned; cbn [hc_flatten hc_restore
      DatetimeHandler_class SimpleReduceHandler_class];
    destruct Hrec as [T v cls payload rest HT' Hred Hc Hr Hnew
                     | T v factory args HT' Hred Hf Ha Hcall];
    try contradiction.
  - now apply datetime_round_trip with cls payload rest.
  - now apply simple_round_trip with factory args.
Qed.

(** C2: whatever the bytes of the payload, [DatetimeHandler.flatten]
    writes their base64 encoding as the first argument under the marker,
    and [DatetimeHandler.restore] decodes it: the first parameter it hands
    to [__new__] is the very byte sequence. *)
Theorem payload_fidelity v cls payload rest st :
  Context.unpicklable context = true ->
  reduce om v = Ok (PTuple [cls; PTuple (PStr payload :: rest)]) ->
  Forall (flattens context) (rest ++ [cls]) ->
  exists fcls frest st',
    DatetimeHandler.flatten om context v st = (Ok TheData, st') /\
    data st' !! REDUCE
    = Some (PTuple [fcls; PList (PStr (Base64.encode payload) :: frest)]) /\
    Py.b64decode (PStr (Base64.encode payload)) = Ok (PStr payload) /\
    forall t,
      DatetimeHandler.restore om context (PDict (data st')) t
      = (c <- Context.restore context fcls false ;;
         r <- mapM (fun i => Context.restore context i false) frest ;;
         pure (new om c (PStr payload :: r))) t.
Proof.
  intros Hunp Hred Hall.
  apply Forall_app in Hall as [Hrest Hcls].
  apply Forall_inv in Hcls.
  destruct (mapM_flattens context rest Hrest (engine st))
    as (frest & s1 & Hfrest & _).
  destruct (Hcls s1) as (fcls & s2 & Hfcls).
  exists fcls, frest. eexists. split; [|split; [|split]].
  - eapply datetime_flatten_run; eassumption.
  - cbn [data]. apply lookup_insert_eq.
  - unfold Py.b64decode. cbn [Py.as_bytes]. now rewrite decode_encode.
  - intros t. cbn [data].
    unfold DatetimeHandler.restore, bind, pure. cbn [Py.getitem].
    rewrite lookup_insert_eq.
    cbn [Py.unpack2 Py.iter fst snd Py.getitem0 Py.b64decode Py.as_bytes
         Py.slice1 tail].
    rewrite decode_encode. reflexivity.
Qed.
End RoundTrip.



Section Contracts.
Context {S : Type}.
Variable om : ObjectModel.
Variable context : Context.t S.

Lemma lossy_run (flat : ObjectModel -> Context.t S -> pyval -> M (fstate S) flattened) v st :
  (flat = DatetimeHandler.flatten \/ flat = SimpleReduceHandler.flatten) ->
  Context.unpicklable context = false ->
  flat om context v st
  = (match unicode om v with
     | Ok u => Ok (AValue (PUnicode u))
     | Raise e => Raise e
     end, st).
Proof.
  intros [-> | ->] Hunp;
    unfold DatetimeHandler.flatten, SimpleReduceHandler.flatten;
    rewrite Hunp; cbn [negb]; unfold bind, pure, ret;
    now destruct (unicode om v).
Qed.

Lemma registered_flatten version T (h : handler_class S) :
  Registry.get (registry version) T = Some h ->
  call_flatten h = DatetimeHandler.flatten
  \/ call_flatten h = SimpleReduceHandler.flatten.
Proof.
  intros Hget. destruct (registry_get _ _ _ Hget) as [[_ ->] | [_ ->]];
    [left | right]; reflexivity.
Qed.

(** C3: with [unpicklable] unset, the [flatten] of a registered handler
    returns the string conversion of the value, which holds no marker
    key. *)
Theorem lossy_flatten_returns_string version T h v u st :
  Registry.get (registry version) T = Some h ->
  Context.unpicklable context = false ->
  unicode om v = Ok u ->
  call_flatten h om context v st = (Ok (AValue (PUnicode u)), st)
  /\ has_key (returned (AValue (PUnicode u)) st) REDUCE = false.
Proof.
  intros Hget Hunp Hu. split; [|reflexivity].
  rewrite (lossy_run (call_flatten h)) by eauto using registered_flatten.
  now rewrite Hu.
Qed.

(** C10: with [unpicklable] unset, the [flatten] of a registered handler
    writes nothing: the dict [data] (and the engine) is as it was, and
    what comes back is the string form, not [data]. *)
Theorem lossy_flatten_leaves_data version T h v st :
  Registry.get (registry version) T = Some h ->
  Context.unpicklable context = false ->
  data (snd (call_flatten h om context v st)) = data st
  /\ snd (call_flatten h om context v st) = st
  /\ fst (call_flatten h om context v st)
     = match unicode om v with
       | Ok u => Ok (AValue (PUnicode u))
       | Raise e => Raise e
       end.
Proof.
  intros Hget Hunp.
  rewrite (lossy_run (call_flatten h)) by eauto using registered_flatten.
  auto.
Qed.

(** C8: on a handler class that defines neither method, [flatten] and
    [restore] raise [NotImplementedError] for every argument and return
    nothing. *)
Theorem base_methods_always_raise (h : handler_class S) obj st obj' t :
  hc_flatten h = None -> hc_restore h = None ->
  call_flatten h om context obj st
  = (Raise (NotImplementedError
              ("You must implement flatten() in " ++ class_str (hc_name h))),
     st)
  /\ call_restore h om context obj' t
     = (Raise (NotImplementedError
                 ("You must implement restore() in " ++ class_str (hc_name h))),
        t).
Proof.
  intros Hf Hr. unfold call_flatten, call_restore. now rewrite Hf, Hr.
Qed.

Lemma getitem_without_key obj key :
  has_key obj key = false ->
  exists e, (e = KeyError (PStr key) \/ e = TypeError)
            /\ Py.getitem obj key = Raise e.
Proof.
  destruct obj; cbn [has_key Py.getitem]; intros Hk; eauto.
  destruct (d !! key); [discriminate | eauto].
Qed.

(** C9: on a value without the marker key, [restore] of either concrete
    handler raises at once, before it reaches the engine: a [KeyError] for
    a dict, a [TypeError] for anything else. *)
Theorem restore_without_marker_raises obj t :
  has_key obj REDUCE = false ->
  exists e,
    (e = KeyError (PStr REDUCE) \/ e = TypeError)
    /\ SimpleReduceHandler.restore om context obj t = (Raise e, t)
    /\ DatetimeHandler.restore om context obj t = (Raise e, t).
Proof.
  intros Hk. destruct (getitem_without_key _ _ Hk) as (e & Hkind & He).
  exists e. split; [assumption|].
  split;
    unfold SimpleReduceHandler.restore, DatetimeHandler.restore, bind, pure;
    now rewrite He.
Qed.

Lemma restores_to_run ys xs t t' :
  restores_to context ys xs t t' ->
  mapM (fun i => Context.restore context i false) ys t = (Ok xs, t').
Proof.
  induction 1 as [t | y ys x xs t t1 t2 Hy _ IH]; [reflexivity|].
  cbn [mapM]. unfold bind at 1. rewrite Hy.
  unfold bind at 1. now rewrite IH.
Qed.

(** C7: [DatetimeHandler.restore] decodes the first argument, restores
    the factory, then restores every remaining argument, one after the
    other and in order, and returns what [cls.__new__] makes of the decoded
    payload followed by all the restored arguments; what calling the class
    would do plays no part. *)
Theorem datetime_restore_allocates d fcls enc frest payload cls rest t t1 t2
    call' :
  d !! REDUCE = Some (PTuple [fcls; PList (PStr enc :: frest)]) ->
  Base64.decode enc = Some payload ->
  Context.restore context fcls false t = (Ok cls, t1) ->
  restores_to context frest rest t1 t2 ->
  DatetimeHandler.restore (with_call om call') context (PDict d) t
  = (new om cls (PStr payload :: rest), t2).
Proof.
  intros Hd Hdec Hcls Hrest. apply restores_to_run in Hrest.
  now rewrite (datetime_restore_run (with_call om call') context
                 d fcls enc frest payload t cls t1 rest t2).
Qed.
End Contracts.


Section MarkerShape.
Context {S : Type}.
Variable om : ObjectModel.
Variable context : Context.t S.

Lemma mapM_encoded xs : forall s ys s',
  mapM (fun i => Context.flatten context i false) xs s = (Ok ys, s') ->
  Forall2 (encoded_by context) xs ys.
Proof.
  induction xs as [|x xs IH]; intros s ys s' Hrun.
  - injection Hrun as <- _. constructor.
  - cbn [mapM] in Hrun. unfold bind at 1 in Hrun.
    destruct (Context.flatten context x false s) as [[y|e] s1] eqn:Hx;
      [|discriminate].
    unfold bind at 1 in Hrun.
    destruct (mapM _ xs s1) as [[ys'|e] s2] eqn:Hxs; [|discriminate].
    injection Hrun as <- _. constructor.
    + now exists s, s1.
    + eapply IH. eassumption.
Qed.

Lemma in_engine_inv {A} (m : M S A) (st : fstate S) r st' :
  in_engine m st = (r, st') ->
  m (engine st) = (r, engine st') /\ data st' = data st.
Proof.
  unfold in_engine. destruct (m (engine st)) as [r' s'].
  intros [= <- <-]. auto.
Qed.

Lemma is_pair_length m xs :
  m = PList xs \/ m = PTuple xs -> is_pair m <-> length xs = 2%nat.
Proof.
  intros Hm. split.
  - intros (a & b & Hab). destruct Hm, Hab; subst; try discriminate;
      match goal with H : _ = _ |- _ => injection H as -> end; reflexivity.
  - destruct xs as [|a [|b [|c xs]]]; try discriminate. intros _.
    exists a, b. destruct Hm; subst; auto.
Qed.

Lemma datetime_marker v st r st' :
  Context.unpicklable context = true ->
  DatetimeHandler.flatten om context v st = (Ok r, st') ->
  exists d cls args a0 payload tl rest fcls frest,
    reduce om v = Ok d /\ Py.iter d = Ok [cls; args] /\
    Py.getitem0 args = Ok a0 /\ Py.b64encode a0 = Ok payload /\
    Py.slice1 args = Ok tl /\ Py.iter tl = Ok rest /\
    encoded_by context cls fcls /\
    Forall2 (encoded_by context) rest frest /\
    data st' !! REDUCE = Some (PTuple [fcls; PList (payload :: frest)]).
Proof.
  intros Hunp Hrun. unfold DatetimeHandler.flatten in Hrun.
  rewrite Hunp in Hrun. cbn [negb] in Hrun. unfold bind, pure in Hrun.
  destruct (reduce om v) as [d|] eqn:Hd; [|discriminate].
  unfold Py.unpack2 in Hrun.
  destruct (Py.iter d) as [[|cls [|args [|]]]|] eqn:Hit; try discriminate.
  cbn [fst snd] in Hrun.
  destruct (Py.getitem0 args) as [a0|] eqn:Ha0; [|discriminate].
  destruct (Py.b64encode a0) as [payload|] eqn:Hpay; [|discriminate].
  destruct (Py.slice1 args) as [tl|] eqn:Htl; [|discriminate].
  destruct (Py.iter tl) as [rest|] eqn:Hrest; [|discriminate].
  destruct (in_engine _ st) as [[frest|] st1] eqn:Hfrest; [|discriminate].
  destruct (in_engine _ st1) as [[fcls|] st2] eqn:Hfcls; [|discriminate].
  apply in_engine_inv in Hfrest as [Hfrest Hd1].
  apply in_engine_inv in Hfcls as [Hfcls Hd2].
  unfold setitem, ret in Hrun. injection Hrun as _ <-.
  exists d, cls, args, a0, payload, tl, rest, fcls, frest.
  repeat split; try assumption.
  - now exists (engine st1), (engine st2).
  - eapply mapM_encoded. eassumption.
  - cbn [data]. apply lookup_insert_eq.
Qed.

Lemma simple_marker v st r st' :
  Context.unpicklable context = true ->
  SimpleReduceHandler.flatten om context v st = (Ok r, st') ->
  exists d items flat,
    reduce om v = Ok d /\ Py.iter d = Ok items /\
    Forall2 (encoded_by context) items flat /\
    data st' !! REDUCE = Some (PList flat).
Proof.
  intros Hunp Hrun. unfold SimpleReduceHandler.flatten in Hrun.
  rewrite Hunp in Hrun. cbn [negb] in Hrun. unfold bind, pure in Hrun.
  destruct (reduce om v) as [d|] eqn:Hd; [|discriminate].
  destruct (Py.iter d) as [items|] eqn:Hit; [|discriminate].
  destruct (in_engine _ st) as [[flat|] st1] eqn:Hflat; [|discriminate].
  apply in_engine_inv in Hflat as [Hflat Hd1].
  unfold setitem, ret in Hrun. injection Hrun as _ <-.
  exists d, items, flat. repeat split; try assumption.
  - eapply mapM_encoded. eassumption.
  - cbn [data]. apply lookup_insert_eq.
Qed.

(** What is under the marker, as the code has it: whenever the [flatten]
    of one of the two concrete handlers returns with [unpicklable] set, the value under the
    marker is, for [DatetimeHandler], the pair of the encoded factory and
    the list of the encoded payload and encoded remaining arguments; for
    [SimpleReduceHandler], the list of the encodings of the elements of
    the value's decomposition, one for each and in order, hence a pair
    of encoded factory and encoded arguments exactly when the
    decomposition is a pair. *)
Theorem marker_shape (h : handler_class S) v st r st' :
  h = DatetimeHandler_class \/ h = SimpleReduceHandler_class ->
  Context.unpicklable context = true ->
  call_flatten h om context v st = (Ok r, st') ->
  exists d items m,
    reduce om v = Ok d /\ Py.iter d = Ok items /\
    data st' !! REDUCE = Some m /\
    ((h = DatetimeHandler_class /\
      exists cls args a0 payload tl rest fcls frest,
        items = [cls; args] /\
        Py.getitem0 args = Ok a0 /\ Py.b64encode a0 = Ok payload /\
        Py.slice1 args = Ok tl /\ Py.iter tl = Ok rest /\
        encoded_by context cls fcls /\
        Forall2 (encoded_by context) rest frest /\
        m = PTuple [fcls; PList (payload :: frest)])
     \/ (h = SimpleReduceHandler_class /\
         exists flat,
           Forall2 (encoded_by context) items flat /\ m = PList flat))
    /\ (is_pair m <-> length items = 2%nat).
Proof.
  intros [-> | ->] Hunp Hrun; unfold call_flatten in Hrun;
    cbn [hc_flatten DatetimeHandler_class SimpleReduceHandler_class] in Hrun.
  - destruct (datetime_marker _ _ _ _ Hunp Hrun)
      as (d & cls & args & a0 & payload & tl & rest & fcls & frest
          & Hd & Hit & Ha0 & Hpay & Htl & Hrest & Hcls & Hfrest & Hm).
    exists d, [cls; args], (PTuple [fcls; PList (payload :: frest)]).
    repeat split; try assumption.
    + left. split; [reflexivity|].
      exists cls, args, a0, payload, tl, rest, fcls, frest.
      repeat split; assumption.
    + now exists fcls, (PList (payload :: frest)); left.
  - destruct (simple_marker _ _ _ _ Hunp Hrun)
      as (d & items & flat & Hd & Hit & Hflat & Hm).
    exists d, items, (PList flat).
    split; [assumption|]. split; [assumption|]. split; [assumption|].
    split.
    + right. split; [reflexivity|]. now exists flat.
    + rewrite (is_pair_length _ flat) by auto.
      now rewrite (Forall2_length _ _ _ Hflat).
Qed.
End MarkerShape.


(* ===================================================================== *)
(** ** The handlers at work in the small world *)
(* ===================================================================== *)

Lemma demo_flattens b x : flattens (Demo.context b) x.
Proof. intros s. now exists (Demo.tag x), (Datatypes.S s). Qed.

Lemma demo_round_trips b x :
  Demo.untag (Demo.tag x) = x -> round_trips (Demo.context b) x.
Proof.
  intros Hx s. exists (Demo.tag x), (Datatypes.S s). split; [reflexivity|].
  intros t. exists (Datatypes.S t). cbn. now rewrite Hx.
Qed.

Lemma T0_reconstructible :
  reconstructible Demo.om (Demo.context true) "datetime.date" Demo.T0.
Proof.
  apply by_payload
    with (cls := PClass "datetime.date") (payload := Demo.payload0)
         (rest := []).
  - simpl. tauto.
  - reflexivity.
  - now apply demo_round_trips.
  - constructor.
  - reflexivity.
Defined.

Lemma round_trip_default_types_witness :
  exists st',
    call_flatten DatetimeHandler_class Demo.om (Demo.context true)
      Demo.T0 Demo.start = (Ok TheData, st') /\
    forall t, exists t',
      call_restore DatetimeHandler_class Demo.om (Demo.context true)
        (returned TheData st') t = (Ok Demo.T0, t').
Proof.
  apply (round_trip_default_types Demo.om (Demo.context true) (2, 7)
           "datetime.date").
  - reflexivity.
  - reflexivity.
  - exact T0_reconstructible.
Defined.

(** A [timedelta] goes through [SimpleReduceHandler] and comes back. *)
Example round_trip_one_day :
  exists st',
    SimpleReduceHandler.flatten Demo.om (Demo.context true)
      Demo.one_day Demo.start = (Ok TheData, st') /\
    forall t, exists t',
      SimpleReduceHandler.restore Demo.om (Demo.context true)
        (PDict (data st')) t = (Ok Demo.one_day, t').
Proof.
  apply simple_round_trip
    with (factory := PClass "datetime.timedelta")
         (args := [PInt 1; PInt 0; PInt 0]);
    try reflexivity; now apply demo_round_trips.
Qed.

Lemma payload_fidelity_witness :
  exists fcls frest st',
    DatetimeHandler.flatten Demo.om (Demo.context true) Demo.T0 Demo.start
    = (Ok TheData, st') /\
    data st' !! REDUCE
    = Some (PTuple [fcls; PList (PStr (Base64.encode Demo.payload0) :: frest)])
    /\ Py.b64decode (PStr (Base64.encode Demo.payload0))
       = Ok (PStr Demo.payload0) /\
    forall t,
      DatetimeHandler.restore Demo.om (Demo.context true) (PDict (data st')) t
      = (c <- Context.restore (Demo.context true) fcls false ;;
         r <- mapM (fun i => Context.restore (Demo.context true) i false) frest ;;
         pure (new Demo.om c (PStr Demo.payload0 :: r))) t.
Proof.
  apply (payload_fidelity Demo.om (Demo.context true) Demo.T0
           (PClass "datetime.date") Demo.payload0 []).
  - reflexivity.
  - reflexivity.
  - repeat constructor. apply demo_flattens.
Defined.

Lemma lossy_flatten_returns_string_witness :
  call_flatten DatetimeHandler_class Demo.om (Demo.context false)
    Demo.T0 Demo.start
  = (Ok (AValue (PUnicode (Demo.text "datetime.date"))), Demo.start)
  /\ has_key (returned (AValue (PUnicode (Demo.text "datetime.date")))
                Demo.start) REDUCE = false.
Proof.
  apply (lossy_flatten_returns_string Demo.om (Demo.context false) (2, 7)
           "datetime.date").
  - reflexivity.
  - reflexivity.
  - reflexivity.
Defined.

Lemma lossy_flatten_leaves_data_witness :
  data (snd (call_flatten SimpleReduceHandler_class Demo.om
               (Demo.context false) Demo.one_day Demo.start))
  = data Demo.start
  /\ snd (call_flatten SimpleReduceHandler_class Demo.om
            (Demo.context false) Demo.one_day Demo.start) = Demo.start
  /\ fst (call_flatten SimpleReduceHandler_class Demo.om
            (Demo.context false) Demo.one_day Demo.start)
     = match unicode Demo.om Demo.one_day with
       | Ok u => Ok (AValue (PUnicode u))
       | Raise e => Raise e
       end.
Proof.
  apply (lossy_flatten_leaves_data Demo.om (Demo.context false) (2, 7)
           "datetime.timedelta").
  - reflexivity.
  - reflexivity.
Defined.

Lemma base_methods_always_raise_witness :
  call_flatten Demo.Forgetful Demo.om (Demo.context true) Demo.T0 Demo.start
  = (Raise (NotImplementedError
              "You must implement flatten() in <class 'app.Forgetful'>"),
     Demo.start)
  /\ call_restore Demo.Forgetful Demo.om (Demo.context true) (PDict ∅) 0%nat
     = (Raise (NotImplementedError
                 "You must implement restore() in <class 'app.Forgetful'>"),
        0%nat).
Proof.
  apply (base_methods_always_raise Demo.om (Demo.context true) Demo.Forgetful).
  - reflexivity.
  - reflexivity.
Defined.

Lemma restore_without_marker_raises_witness :
  exists e,
    (e = KeyError (PStr REDUCE) \/ e = TypeError)
    /\ SimpleReduceHandler.restore Demo.om (Demo.context true)
         (PDict {["py/object" := PStr "datetime.date"]}) 0%nat
       = (Raise e, 0%nat)
    /\ DatetimeHandler.restore Demo.om (Demo.context true)
         (PDict {["py/object" := PStr "datetime.date"]}) 0%nat
       = (Raise e, 0%nat).
Proof.
  apply (restore_without_marker_raises Demo.om (Demo.context true)).
  reflexivity.
Defined.

Lemma datetime_restore_allocates_witness :
  DatetimeHandler.restore
    (with_call Demo.om (fun _ _ => Raise ValueError)) (Demo.context true)
    (PDict {[REDUCE := PTuple [Demo.tag (PClass "datetime.time");
                               PList [PStr "B+cAAQEAAAAA";
                                      Demo.tag (PClass "app.UTC");
                                      PStr "UTC"]]]}) 0%nat
  = (new Demo.om (PClass "datetime.time")
       [PStr Demo.payload0; PClass "app.UTC"; PStr "UTC"], 3%nat).
Proof.
  apply (datetime_restore_allocates Demo.om (Demo.context true)
           _ (Demo.tag (PClass "datetime.time")) "B+cAAQEAAAAA"
           [Demo.tag (PClass "app.UTC"); PStr "UTC"]
           Demo.payload0 (PClass "datetime.time")
           [PClass "app.UTC"; PStr "UTC"] 0%nat 1%nat 3%nat).
  - reflexivity.
  - vm_compute. reflexivity.
  - reflexivity.
  - apply restores_next with (t1 := 2%nat); [reflexivity|].
    apply restores_next with (t1 := 3%nat); [reflexivity|].
    apply restores_none.
Defined.

Lemma marker_shape_witness :
  exists d items m,
    reduce Demo.om Demo.one_day = Ok d /\ Py.iter d = Ok items /\
    data {| engine := 2%nat;
            data := <[REDUCE := PList [Demo.tag (PClass "datetime.timedelta");
                                       PTuple [PInt 1; PInt 0; PInt 0]]]> ∅ |}
      !! REDUCE = Some m /\
    ((@SimpleReduceHandler_class nat = DatetimeHandler_class /\
      exists cls args a0 payload tl rest fcls frest,
        items = [cls; args] /\
        Py.getitem0 args = Ok a0 /\ Py.b64encode a0 = Ok payload /\
        Py.slice1 args = Ok tl /\ Py.iter tl = Ok rest /\
        encoded_by (Demo.context true) cls fcls /\
        Forall2 (encoded_by (Demo.context true)) rest frest /\
        m = PTuple [fcls; PList (payload :: frest)])
     \/ (@SimpleReduceHandler_class nat = SimpleReduceHandler_class /\
         exists flat,
           Forall2 (encoded_by (Demo.context true)) items flat /\
           m = PList flat))
    /\ (is_pair m <-> length items = 2%nat).
Proof.
  apply (marker_shape Demo.om (Demo.context true) SimpleReduceHandler_class
           Demo.one_day Demo.start TheData).
  - right. reflexivity.
  - reflexivity.
  - reflexivity.
Defined.

(** C4 fails on the code: the decomposition of an instance that pickles
    with a state has three elements, and [SimpleReduceHandler.flatten]
    writes all three under the marker, where [SimpleReduceHandler.restore]
    and [DatetimeHandler] take exactly two. *)
Lemma marker_not_always_pair :
  let m := PList [PDict {[Demo.TYPE := PStr "app.Account"]};
                  PTuple [PStr "alice"];
                  PDict {["balance" := PInt 10]}] in
  exists st',
    call_flatten SimpleReduceHandler_class Demo.om (Demo.context true)
      Demo.account Demo.start = (Ok TheData, st')
    /\ data st' !! REDUCE = Some m
    /\ ~ is_pair m.
Proof.
  intros m. eexists. split; [|split].
  - unfold call_flatten. cbn [hc_flatten SimpleReduceHandler_class].
    eapply simple_flatten_run; reflexivity.
  - cbn [data]. apply lookup_insert_eq.
  - intros (a & b & [Hab | Hab]); discriminate.
Qed.

(** The document written for such an instance is one [restore] rejects. *)
Example account_not_restored :
  SimpleReduceHandler.restore Demo.om (Demo.context true)
    (PDict {[REDUCE := PList [PDict {[Demo.TYPE := PStr "app.Account"]};
                              PTuple [PStr "alice"];
                              PDict {["balance" := PInt 10]}]]}) 0%nat
  = (Raise ValueError, 3%nat).
Proof. reflexivity. Qed.

(** C1 fails on the code: [collections.OrderedDict] is registered at
    import, yet a value of it whose decomposition has a third element does
    not come back.  The registered handler's [flatten] returns [data], and
    its [restore] of that very document raises [ValueError]. *)
Lemma ordered_dict_round_trip_fails :
  exists h st',
    Registry.get (registry (2, 7)) "collections.OrderedDict" = Some h
    /\ call_flatten h Demo.om (Demo.context true) noted_odict Demo.start
       = (Ok TheData, st')
    /\ data st' !! REDUCE
       = Some (PList [PDict {[Demo.TYPE := PStr "collections.OrderedDict"]};
                      PTuple [PList []];
                      PDict {["note" := PInt 1]}])
    /\ call_restore h Demo.om (Demo.context true) (returned TheData st')
         0%nat
       = (Raise ValueError, 3%nat).
Proof.
  exists SimpleReduceHandler_class. eexists. split; [|split; [|split]].
  - reflexivity.
  - unfold call_flatten. cbn [hc_flatten SimpleReduceHandler_class].
    eapply simple_flatten_run; reflexivity.
  - cbn [data]. apply lookup_insert_eq.
  - reflexivity.
Qed.

Lemma get_is_exact_type_witness :
  Registry.get
    (Registry.register (Registry.__init__ (H := nat)) "datetime.date" 1%nat)
    "datetime.datetime" = None.
Proof.
  apply (get_is_exact_type Demo.bases).
  - apply issubclass_step with (b := "datetime.date").
    + simpl. left. reflexivity.
    + apply issubclass_refl.
  - discriminate.
  - reflexivity.
Defined.

(** The recorded instant: [flatten] writes the encoded payload as the first
    argument under the marker, and [restore] of that document is the
    instant again. *)
Example recorded_instant :
  DatetimeHandler.flatten Demo.om (Demo.context true) Demo.T0 Demo.start
  = (Ok TheData,
     {| engine := 1%nat;
        data := {[REDUCE := PTuple [PDict {[Demo.TYPE := PStr "datetime.date"]};
                                    PList [PStr "B+cAAQEAAAAA"]]]} |})
  /\ DatetimeHandler.restore Demo.om (Demo.context true)
       (PDict {[REDUCE := PTuple [PDict {[Demo.TYPE := PStr "datetime.date"]};
                                  PList [PStr "B+cAAQEAAAAA"]]]}) 0%nat
     = (Ok Demo.T0, 1%nat).
Proof.
  split.
  - rewrite (datetime_flatten_run Demo.om (Demo.context true) Demo.T0
               (PClass "datetime.date") Demo.payload0 [] Demo.start
               [] 0%nat (Demo.tag (PClass "datetime.date")) 1%nat)
      by reflexivity.
    rewrite encode_payload0. reflexivity.
  - rewrite (datetime_restore_run Demo.om (Demo.context true) _
               (Demo.tag (PClass "datetime.date")) "B+cAAQEAAAAA" []
               Demo.payload0 0%nat (PClass "datetime.date") 1%nat [] 1%nat);
      reflexivity.
Qed.

(* ===================================================================== *)
(** ** More on the registry *)
(* ===================================================================== *)

Section RegistryRuns.
Context {H : Type}.
Implicit Types (r : Registry.t H) (T U : string) (A B : H).

Lemma last_binding_from (found : option H) T (calls : list (string * H)) :
  fold_left (fun found call =>
               if String.eqb (fst call) T then Some (snd call) else found)
            calls found
  = match last_binding T calls with
    | Some h => Some h
    | None => found
    end.
Proof.
  unfold last_binding. revert found.
  induction calls as [|[U A] calls IH]; intros found; [reflexivity|].
  cbn [fold_left fst snd]. rewrite IH.
  rewrite (IH (if String.eqb U T then Some A else None)).
  destruct (fold_left _ calls None); [reflexivity|].
  now destruct (String.eqb U T).
Qed.

Lemma get_register_all r T (calls : list (string * H)) :
  Registry.get (register_all r calls) T
  = match last_binding T calls with
    | Some h => Some h
    | None => Registry.get r T
    end.
Proof.
  revert r. induction calls as [|[U A] calls IH]; intros r; [reflexivity|].
  assert (Hlast : last_binding T ((U, A) :: calls)
                  = match last_binding T calls with
                    | Some h => Some h
                    | None => if String.eqb U T then Some A else None
                    end)
    by (unfold last_binding at 1; cbn [fold_left fst snd];
        apply last_binding_from).
  rewrite Hlast.
  change (register_all r ((U, A) :: calls))
    with (register_all (Registry.register r U A) calls).
  rewrite IH. destruct (last_binding T calls); [reflexivity|].
  destruct (String.eqb_spec U T) as [-> | Hne].
  - apply get_register_same.
  - now apply get_register_other.
Qed.

(** X1: a registry built from scratch by any run of [register] calls
    answers [get] with the handler of the last call for that class, and
    with [None] when no call named it. *)
Theorem get_after_registrations T (calls : list (string * H)) :
  Registry.get (register_all Registry.__init__ calls) T
  = last_binding T calls.
Proof.
  rewrite get_register_all. now destruct (last_binding T calls).
Qed.

(** X18: registrations for other classes never disturb a binding: after
    any run of [register] calls none of which names [T], [get(T)] answers
    as it did before the run. *)
Theorem registrations_elsewhere_keep_binding r T (calls : list (string * H)) :
  Forall (fun call => fst call ≠ T) calls ->
  Registry.get (register_all r calls) T = Registry.get r T.
Proof.
  intros Hother. rewrite get_register_all.
  assert (Hnone : last_binding T calls = None).
  { unfold last_binding.
    induction Hother as [|[U A] calls HU _ IH]; [reflexivity|].
    cbn [fold_left fst snd]. cbn [fst] in HU.
    destruct (String.eqb_spec U T) as [-> | _]; [now destruct HU | exact IH]. }
  now rewrite Hnone.
Qed.

(** X2: registrations for two different classes can be made in either
    order: the registry is the same. *)
Theorem register_commutes r T U A B :
  T ≠ U ->
  Registry.register (Registry.register r T A) U B
  = Registry.register (Registry.register r U B) T A.
Proof.
  intros Hne. unfold Registry.register. cbn. f_equal.
  now apply insert_insert_ne.
Qed.
End RegistryRuns.

Lemma registrations_elsewhere_keep_binding_witness :
  Registry.get
    (register_all (registry (S := nat) (2, 7))
       [("app.Account", SimpleReduceHandler_class);
        ("app.Interval", BaseHandler_class)])
    "datetime.date"
  = Registry.get (registry (2, 7)) "datetime.date".
Proof.
  apply registrations_elsewhere_keep_binding.
  repeat constructor; discriminate.
Defined.

Lemma register_commutes_witness :
  Registry.register
    (Registry.register (Registry.__init__ (H := nat)) "datetime.date" 1%nat)
    "datetime.time" 2%nat
  = Registry.register
      (Registry.register Registry.__init__ "datetime.time" 2%nat)
      "datetime.date" 1%nat.
Proof.
  apply register_commutes. discriminate.
Defined.

Section DefaultBindings.
Context {S : Type}.

(** X3: the registry as the import leaves it binds the three temporal
    classes to [DatetimeHandler], [time.struct_time] and
    [datetime.timedelta] to [SimpleReduceHandler], and
    [collections.OrderedDict] to [SimpleReduceHandler] only from Python 2.7
    on; no other class is bound. *)
Theorem registry_default_bindings version T (h : handler_class S) :
  Registry.get (registry version) T = Some h
  <-> (In T temporal_types /\ h = DatetimeHandler_class)
      \/ (In T ["time.struct_time"; "datetime.timedelta"]
          /\ h = SimpleReduceHandler_class)
      \/ (T = "collections.OrderedDict" /\ at_least_2_7 version = true
          /\ h = SimpleReduceHandler_class).
Proof.
  unfold registry, Registry.get, Registry.register, Registry.__init__.
  split.
  - intros Hget.
    destruct (at_least_2_7 version); cbn [Registry._handlers] in Hget;
      repeat (rewrite lookup_insert in Hget; case_decide;
              [ subst T; injection Hget as <-; simpl; tauto | ]);
      rewrite lookup_empty in Hget; discriminate.
  - intros [[HT ->] | [[HT ->] | (-> & Hv & ->)]].
    + simpl in HT.
      destruct (at_least_2_7 version);
        repeat match goal with
               | H : _ \/ _ |- _ => destruct H
               | H : False |- _ => destruct H
               end; subst T; reflexivity.
    + simpl in HT.
      destruct (at_least_2_7 version);
        repeat match goal with
               | H : _ \/ _ |- _ => destruct H
               | H : False |- _ => destruct H
               end; subst T; reflexivity.
    + rewrite Hv. reflexivity.
Qed.
End DefaultBindings.

(* ===================================================================== *)
(** ** What [flatten] does to [data], and how it fails *)
(* ===================================================================== *)

Section FlattenFailures.
Context {S : Type}.
Variable om : ObjectModel.
Variable context : Context.t S.

Lemma in_engine_data {A} (m : M S A) (st : fstate S) :
  data (snd (in_engine m st)) = data st.
Proof. unfold in_engine. now destruct (m (engine st)). Qed.

Lemma in_engine_keeps {A} (m : M S A) (st : fstate S) r st' :
  in_engine m st = (r, st') -> data st' = data st.
Proof. intros Hrun. now rewrite <- (in_engine_data m st), Hrun. Qed.

Lemma datetime_all_or_nothing v st r st' :
  DatetimeHandler.flatten om context v st = (r, st') ->
  (Context.unpicklable context = true /\ r = Ok TheData
   /\ exists m, data st' = <[REDUCE := m]> (data st))
  \/ (r <> Ok TheData /\ data st' = data st).
Proof.
  unfold DatetimeHandler.flatten.
  destruct (Context.unpicklable context); cbn [negb];
    unfold bind, pure, ret, setitem; intros Hrun.
  - destruct (reduce om v) as [d|]; [|injection Hrun as <- <-; now right].
    destruct (Py.unpack2 d) as [ca|]; [|injection Hrun as <- <-; now right].
    destruct (Py.getitem0 (snd ca)) as [a0|];
      [|injection Hrun as <- <-; now right].
    destruct (Py.b64encode a0) as [payload|];
      [|injection Hrun as <- <-; now right].
    destruct (Py.slice1 (snd ca)) as [tl|];
      [|injection Hrun as <- <-; now right].
    destruct (Py.iter tl) as [items|];
      [|injection Hrun as <- <-; now right].
    destruct (in_engine _ st) as [[rest|] st1] eqn:Hrest;
      apply in_engine_keeps in Hrest;
      [|injection Hrun as <- <-; now right].
    destruct (in_engine _ st1) as [[fcls|] st2] eqn:Hcls;
      apply in_engine_keeps in Hcls;
      [|injection Hrun as <- <-; right; split; [discriminate | congruence]].
    injection Hrun as <- <-. left. repeat split.
    eexists. cbn [data]. now rewrite Hcls, Hrest.
  - right. destruct (unicode om v); injection Hrun as <- <-; now split.
Qed.

Lemma simple_all_or_nothing v st r st' :
  SimpleReduceHandler.flatten om context v st = (r, st') ->
  (Context.unpicklable context = true /\ r = Ok TheData
   /\ exists m, data st' = <[REDUCE := m]> (data st))
  \/ (r <> Ok TheData /\ data st' = data st).
Proof.
  unfold SimpleReduceHandler.flatten.
  destruct (Context.unpicklable context); cbn [negb];
    unfold bind, pure, ret, setitem; intros Hrun.
  - destruct (reduce om v) as [d|]; [|injection Hrun as <- <-; now right].
    destruct (Py.iter d) as [items|]; [|injection Hrun as <- <-; now right].
    destruct (in_engine _ st) as [[flat|] st1] eqn:Hflat;
      apply in_engine_keeps in Hflat;
      [|injection Hrun as <- <-; now right].
    injection Hrun as <- <-. left. repeat split.
    eexists. cbn [data]. now rewrite Hflat.
  - right. destruct (unicode om v); injection Hrun as <- <-; now split.
Qed.

(** X4: a [flatten] of either concrete handler writes to [data] all or
    nothing.  Either it returns [data] itself, with [unpicklable] set and
    exactly the marker key assigned, or it returns a string or raises and
    [data] holds what it held before. *)
Theorem flatten_all_or_nothing (h : handler_class S) v st r st' :
  h = DatetimeHandler_class \/ h = SimpleReduceHandler_class ->
  call_flatten h om context v st = (r, st') ->
  (Context.unpicklable context = true /\ r = Ok TheData
   /\ exists m, data st' = <[REDUCE := m]> (data st))
  \/ (r <> Ok TheData /\ data st' = data st).
Proof.
  intros [-> | ->] Hrun.
  - now apply datetime_all_or_nothing with v.
  - now apply simple_all_or_nothing with v.
Qed.

(** X5: [DatetimeHandler.flatten] takes a decomposition of exactly two
    elements: on any other length it raises [ValueError] before it calls
    the engine or writes to [data]. *)
Theorem datetime_flatten_rejects_non_pair v d items st :
  Context.unpicklable context = true ->
  reduce om v = Ok d ->
  Py.iter d = Ok items ->
  length items <> 2%nat ->
  DatetimeHandler.flatten om context v st = (Raise ValueError, st).
Proof.
  intros Hunp Hd Hit Hlen. unfold DatetimeHandler.flatten.
  rewrite Hunp, Hd. cbn [negb]. unfold bind, pure, Py.unpack2.
  rewrite Hit.
  destruct items as [|a [|b [|c items]]]; try reflexivity.
  now destruct Hlen.
Qed.


(** X7: the payload must be a string.  When the first argument of the
    decomposition is a builtin value that is neither a byte string nor a
    text ([None], a boolean, a number, a tuple, a list, a dict or a class),
    [DatetimeHandler.flatten] raises [TypeError] and touches nothing. *)
Theorem datetime_flatten_payload_type v cls a0 rest st :
  Context.unpicklable context = true ->
  reduce om v = Ok (PTuple [cls; PTuple (a0 :: rest)]) ->
  (forall s, a0 <> PStr s) -> (forall u, a0 <> PUnicode u) ->
  (forall c state, a0 <> PObject c state) ->
  DatetimeHandler.flatten om context v st = (Raise TypeError, st).
Proof.
  intros Hunp Hred Hstr Huni Hobj. unfold DatetimeHandler.flatten.
  rewrite Hunp, Hred. cbn [negb]. unfold bind, pure.
  cbn [Py.unpack2 Py.iter fst snd Py.getitem0]. unfold Py.b64encode.
  destruct a0; cbn [Py.as_bytes]; try reflexivity.
  - now destruct (Hstr s).
  - now destruct (Huni u).
Qed.

Lemma mapM_raises {A B} (f : A -> M S B) (pre : list A) x post s ys s1 e s2 :
  mapM f pre s = (Ok ys, s1) ->
  f x s1 = (Raise e, s2) ->
  mapM f (pre ++ x :: post)%list s = (Raise e, s2).
Proof.
  revert s ys. induction pre as [|p pre IH]; intros s ys Hpre Hx.
  - injection Hpre as _ <-. cbn [app mapM]. unfold bind at 1.
    now rewrite Hx.
  - cbn [mapM] in Hpre. unfold bind at 1 in Hpre.
    destruct (f p s) as [[y|] s0] eqn:Hp; [|discriminate].
    unfold bind at 1 in Hpre.
    destruct (mapM f pre s0) as [[ys0|] s0'] eqn:Hpre0; [|discriminate].
    injection Hpre as _ <-.
    cbn [app mapM]. unfold bind at 1. rewrite Hp.
    unfold bind at 1. now rewrite (IH s0 ys0 Hpre0 Hx).
Qed.

(** X8: [SimpleReduceHandler.flatten] hands the elements of the
    decomposition to the engine one by one, in order.  When the engine
    raises on one of them, the exception comes out as it is, the later
    elements are not flattened (the engine is left in the state of the
    failing call) and [data] is not written. *)
Theorem simple_flatten_engine_error v d (pre : list pyval) x post st ys s1 e
    s2 :
  Context.unpicklable context = true ->
  reduce om v = Ok d ->
  Py.iter d = Ok (pre ++ x :: post)%list ->
  mapM (fun i => Context.flatten context i false) pre (engine st)
    = (Ok ys, s1) ->
  Context.flatten context x false s1 = (Raise e, s2) ->
  SimpleReduceHandler.flatten om context v st
  = (Raise e, {| engine := s2; data := data st |}).
Proof.
  intros Hunp Hd Hit Hpre Hx. unfold SimpleReduceHandler.flatten.
  rewrite Hunp, Hd. cbn [negb]. unfold bind, pure. rewrite Hit.
  now rewrite (in_engine_run _ _ _ _
                 (mapM_raises _ pre x post _ _ _ _ _ Hpre Hx)).
Qed.
End FlattenFailures.

(* ===================================================================== *)
(** ** The encoded payload is plain text *)
(* ===================================================================== *)

Section PlainText.
Import Base64.






Lemma encode_injective p q : encode p = encode q -> p = q.
Proof.
  intros Heq. assert (Hd : decode (encode p) = decode (encode q))
    by now rewrite Heq.
  rewrite !decode_encode in Hd. now injection Hd.
Qed.
End PlainText.

(* ===================================================================== *)
(** ** What [restore] accepts, and how it fails *)
(* ===================================================================== *)

Section RestoreBehaviour.
Context {S : Type}.
Variable om : ObjectModel.
Variable context : Context.t S.

(** X9: [SimpleReduceHandler.restore] restores the two elements under the
    marker in order and returns the call of the restored factory on the
    elements of the restored arguments, none when there are none;
    [__new__] plays no part, and what the call raises comes out as it is. *)
Theorem simple_restore_calls_factory d m f1 f2 factory args star t t1 t2
    new' :
  d !! REDUCE = Some m ->
  Py.iter m = Ok [f1; f2] ->
  Context.restore context f1 false t = (Ok factory, t1) ->
  Context.restore context f2 false t1 = (Ok args, t2) ->
  Py.iter args = Ok star ->
  SimpleReduceHandler.restore (with_new om new') context (PDict d) t
  = (call om factory star, t2).
Proof.
  intros Hd Hit Hf Ha Hstar.
  change (call om factory star) with (call (with_new om new') factory star).
  apply simple_restore_run with (m := m) (items := [f1; f2]) (args := args);
    try assumption.
  cbn [mapM]. unfold bind at 1. rewrite Hf.
  unfold bind at 1. unfold bind at 1. now rewrite Ha.
Qed.

Lemma mapM_restores_all :
  restores_all context ->
  forall ys t, exists xs t',
    mapM (fun i => Context.restore context i false) ys t = (Ok xs, t')
    /\ length xs = length ys.
Proof.
  intros Hall. induction ys as [|y ys IH]; intros t.
  - now exists [], t.
  - destruct (Hall y t) as (x & t1 & Hx).
    destruct (IH t1) as (xs & t2 & Hxs & Hlen).
    exists (x :: xs), t2. split.
    + cbn [mapM]. unfold bind at 1. rewrite Hx.
      unfold bind at 1. now rewrite Hxs.
    + simpl. now rewrite Hlen.
Qed.

(** X10: [SimpleReduceHandler.flatten] accepts a decomposition of any
    length, [SimpleReduceHandler.restore] only one of two elements.  For a
    value whose decomposition has another length, with an engine that
    flattens its elements and restores whatever it is handed, [flatten]
    returns [data] and [restore] of that very document raises
    [ValueError]. *)
Theorem simple_non_pair_not_restorable v d items st :
  Context.unpicklable context = true ->
  reduce om v = Ok d ->
  Py.iter d = Ok items ->
  length items <> 2%nat ->
  Forall (flattens context) items ->
  restores_all context ->
  exists st',
    SimpleReduceHandler.flatten om context v st = (Ok TheData, st') /\
    forall t, exists t',
      SimpleReduceHandler.restore om context (PDict (data st')) t
      = (Raise ValueError, t').
Proof.
  intros Hunp Hd Hit Hlen Hflat Hres.
  destruct (mapM_flattens context items Hflat (engine st))
    as (flat & s1 & Hrun & Hlf).
  eexists. split.
  - eapply simple_flatten_run; eassumption.
  - intros t. cbn [data].
    destruct (mapM_restores_all Hres flat t) as (xs & t' & Hxs & Hlx).
    exists t'. unfold SimpleReduceHandler.restore, bind, pure.
    cbn [Py.getitem]. rewrite lookup_insert_eq. cbn [Py.iter].
    rewrite Hxs. unfold Py.unpack2. cbn [Py.iter].
    assert (Hne : length xs <> 2%nat) by congruence.
    destruct xs as [|a [|b [|c xs]]]; try reflexivity.
    now destruct Hne.
Qed.

(** X11: [DatetimeHandler.restore] decodes the payload before it restores
    anything.  When the first argument under the marker is a builtin value
    that is not a string ([None], a boolean, a number, a tuple, a list, a
    dict or a class), [TypeError] comes out of the decoding and the engine
    has not been called. *)
Theorem datetime_restore_bad_payload d m fcls fargs a0 t :
  d !! REDUCE = Some m ->
  Py.iter m = Ok [fcls; fargs] ->
  Py.getitem0 fargs = Ok a0 ->
  (forall s, a0 <> PStr s) -> (forall u, a0 <> PUnicode u) ->
  (forall c state, a0 <> PObject c state) ->
  DatetimeHandler.restore om context (PDict d) t = (Raise TypeError, t).
Proof.
  intros Hd Hit Ha0 Hstr Huni Hobj.
  unfold DatetimeHandler.restore, bind, pure. cbn [Py.getitem].
  rewrite Hd. unfold Py.unpack2. rewrite Hit. cbn [fst snd].
  rewrite Ha0. unfold Py.b64decode.
  destruct a0; cbn [Py.as_bytes]; try reflexivity.
  - now destruct (Hstr s).
  - now destruct (Huni u).
Qed.


(** X13: the document keeps the payload apart.  When
    [DatetimeHandler.flatten] has written the same marker for two values,
    their payloads are the same bytes. *)
Theorem datetime_payloads_distinct v1 v2 cls1 cls2 p1 p2 rest1 rest2
    st1 st2 r1 r2 st1' st2' :
  Context.unpicklable context = true ->
  reduce om v1 = Ok (PTuple [cls1; PTuple (PStr p1 :: rest1)]) ->
  reduce om v2 = Ok (PTuple [cls2; PTuple (PStr p2 :: rest2)]) ->
  DatetimeHandler.flatten om context v1 st1 = (Ok r1, st1') ->
  DatetimeHandler.flatten om context v2 st2 = (Ok r2, st2') ->
  data st1' !! REDUCE = data st2' !! REDUCE ->
  p1 = p2.
Proof.
  intros Hunp Hred1 Hred2 Hrun1 Hrun2 Hsame.
  destruct (datetime_marker om context _ _ _ _ Hunp Hrun1)
    as (d1 & c1 & a1 & x1 & e1 & tl1 & r1' & fc1 & fr1
        & Hd1 & Hit1 & Hx1 & He1 & _ & _ & _ & _ & Hm1).
  destruct (datetime_marker om context _ _ _ _ Hunp Hrun2)
    as (d2 & c2 & a2 & x2 & e2 & tl2 & r2' & fc2 & fr2
        & Hd2 & Hit2 & Hx2 & He2 & _ & _ & _ & _ & Hm2).
  rewrite Hred1 in Hd1. injection Hd1 as <-.
  rewrite Hred2 in Hd2. injection Hd2 as <-.
  cbn [Py.iter] in Hit1, Hit2.
  injection Hit1 as <- <-. injection Hit2 as <- <-.
  cbn [Py.getitem0] in Hx1, Hx2.
  injection Hx1 as <-. injection Hx2 as <-.
  unfold Py.b64encode in He1, He2. cbn [Py.as_bytes] in He1, He2.
  injection He1 as <-. injection He2 as <-.
  rewrite Hm1, Hm2 in Hsame. injection Hsame as _ Henc _.
  now apply encode_injective.
Qed.

(** X14: the use the module's docstring describes.  After
    [register(T, SimpleReduceHandler)] on any registry, [get(T)] gives a
    handler through which a value of [T] goes out and comes back, when its
    decomposition is a factory and an argument tuple (empty or not) that
    the engine round-trips and the factory rebuilds the value from. *)
Theorem registered_reduce_handler_round_trip
    (r : Registry.t (handler_class S)) T v factory args st :
  Context.unpicklable context = true ->
  reduce om v = Ok (PTuple [factory; PTuple args]) ->
  round_trips context factory ->
  round_trips context (PTuple args) ->
  call om factory args = Ok v ->
  exists h st',
    get (register r T SimpleReduceHandler_class) T = Some h /\
    call_flatten h om context v st = (Ok TheData, st') /\
    forall t, exists t',
      call_restore h om context (returned TheData st') t = (Ok v, t').
Proof.
  intros Hunp Hred Hf Ha Hcall.
  destruct (simple_round_trip om context v factory args st
              Hunp Hred Hf Ha Hcall) as (st' & Hflat & Hback).
  exists SimpleReduceHandler_class, st'. split; [|split].
  - apply get_register_same.
  - exact Hflat.
  - exact Hback.
Qed.
End RestoreBehaviour.

Section Quirks.
Context {S : Type}.
Variable om : ObjectModel.
Variable context : Context.t S.

(** X15: [SimpleReduceHandler.flatten] iterates over whatever
    [__reduce__] returns.  The string form of a decomposition is no
    exception: it is taken apart into its characters, and the marker gets
    one encoded one-character string for each. *)
Theorem simple_flatten_string_decomposition v s st :
  Context.unpicklable context = true ->
  reduce om v = Ok (PStr s) ->
  Forall (flattens context) (Py.chars s) ->
  exists flat st',
    SimpleReduceHandler.flatten om context v st = (Ok TheData, st') /\
    data st' !! REDUCE = Some (PList flat) /\
    length flat = String.length s /\
    Forall2 (encoded_by context) (Py.chars s) flat.
Proof.
  intros Hunp Hred Hall.
  destruct (mapM_flattens context _ Hall (engine st))
    as (flat & s1 & Hrun & Hlen).
  exists flat. eexists. split; [|split; [|split]].
  - eapply simple_flatten_run; try eassumption. reflexivity.
  - cbn [data]. apply lookup_insert_eq.
  - rewrite Hlen. unfold Py.chars. rewrite length_map.
    clear. induction s as [|c s IH]; [reflexivity|]. simpl. now rewrite IH.
  - eapply mapM_encoded. eassumption.
Qed.

(** X16: the restored arguments are spread into the call, so they must be
    a sequence.  When they come back as [None], a boolean or a number,
    [SimpleReduceHandler.restore] raises [TypeError] after the engine has
    restored both elements, and the factory is not called. *)
Theorem simple_restore_arguments_not_iterable d m f1 f2 factory args t t1 t2 :
  d !! REDUCE = Some m ->
  Py.iter m = Ok [f1; f2] ->
  Context.restore context f1 false t = (Ok factory, t1) ->
  Context.restore context f2 false t1 = (Ok args, t2) ->
  args = PNone \/ (exists b, args = PBool b) \/ (exists n, args = PInt n)
  \/ (exists x, args = PFloat x) ->
  SimpleReduceHandler.restore om context (PDict d) t = (Raise TypeError, t2).
Proof.
  intros Hd Hit Hf Ha Hargs.
  unfold SimpleReduceHandler.restore, bind, pure. cbn [Py.getitem].
  rewrite Hd, Hit. cbn [mapM]. unfold bind, ret. rewrite Hf, Ha.
  cbn [Py.unpack2 Py.iter fst snd].
  now destruct Hargs as [-> | [[b ->] | [[n ->] | [x ->]]]].
Qed.
End Quirks.

Section VisitOrder.
Variable om : ObjectModel.

Lemma recorder_mapM_flatten b xs log :
  mapM (fun i => Context.flatten (recorder b) i false) xs log
  = (Ok xs, (log ++ xs)%list).
Proof.
  revert log. induction xs as [|x xs IH]; intros log.
  - cbn [mapM]. unfold ret. now rewrite app_nil_r.
  - cbn [mapM]. unfold bind at 1. cbn [Context.flatten recorder].
    unfold bind at 1. rewrite IH. unfold ret.
    now rewrite <- app_assoc.
Qed.

Lemma recorder_mapM_restore b xs log :
  mapM (fun i => Context.restore (recorder b) i false) xs log
  = (Ok xs, (log ++ xs)%list).
Proof.
  revert log. induction xs as [|x xs IH]; intros log.
  - cbn [mapM]. unfold ret. now rewrite app_nil_r.
  - cbn [mapM]. unfold bind at 1. cbn [Context.restore recorder].
    unfold bind at 1. rewrite IH. unfold ret.
    now rewrite <- app_assoc.
Qed.

(** X17: the order in which [DatetimeHandler] visits the parts.  On an
    engine that logs what it is handed, [flatten] hands over the remaining
    arguments first and the factory last, while [restore] of the document
    hands over the factory first and the remaining arguments after it; the
    payload is never handed to the engine. *)
Theorem datetime_visit_order v cls payload rest d0 :
  reduce om v = Ok (PTuple [cls; PTuple (PStr payload :: rest)]) ->
  exists st',
    DatetimeHandler.flatten om (recorder true) v {| engine := []; data := d0 |}
    = (Ok TheData, st')
    /\ engine st' = (rest ++ [cls])%list
    /\ snd (DatetimeHandler.restore om (recorder true) (PDict (data st')) [])
       = cls :: rest.
Proof.
  intros Hred. eexists. split; [|split].
  - eapply datetime_flatten_run; try eassumption; try reflexivity.
    cbn [engine]. apply recorder_mapM_flatten.
  - reflexivity.
  - cbn [data].
    rewrite (datetime_restore_run om (recorder true) _ cls
               (Base64.encode payload) rest payload [] cls [cls] rest
               (cls :: rest)).
    + reflexivity.
    + apply lookup_insert_eq.
    + apply decode_encode.
    + reflexivity.
    + apply (recorder_mapM_restore true rest [cls]).
Qed.
End VisitOrder.

(* ===================================================================== *)
(** ** The further properties at work in the small world *)
(* ===================================================================== *)

Lemma demo_restores_all b : restores_all (Demo.context b).
Proof. intros y t. now exists (Demo.untag y), (Datatypes.S t). Qed.

Lemma flatten_all_or_nothing_witness :
  let st' := {| engine := 2%nat;
                data := <[REDUCE := PList [Demo.tag (PClass "datetime.timedelta");
                                           PTuple [PInt 1; PInt 0; PInt 0]]]>
                          (data Demo.start) |} in
  (Context.unpicklable (Demo.context true) = true
   /\ Ok TheData = Ok TheData
   /\ exists m, data st' = <[REDUCE := m]> (data Demo.start))
  \/ (Ok TheData <> Ok TheData /\ data st' = data Demo.start).
Proof.
  intros st'.
  apply (flatten_all_or_nothing Demo.om (Demo.context true)
           SimpleReduceHandler_class Demo.one_day Demo.start).
  - right. reflexivity.
  - reflexivity.
Defined.

Lemma datetime_flatten_rejects_non_pair_witness :
  DatetimeHandler.flatten Demo.om (Demo.context true) Demo.account Demo.start
  = (Raise ValueError, Demo.start).
Proof.
  apply (datetime_flatten_rejects_non_pair Demo.om (Demo.context true)
           Demo.account
           (PTuple [PClass "app.Account"; PTuple [PStr "alice"];
                    PDict {["balance" := PInt 10]}])
           [PClass "app.Account"; PTuple [PStr "alice"];
            PDict {["balance" := PInt 10]}]).
  - reflexivity.
  - reflexivity.
  - reflexivity.
  - simpl. lia.
Defined.


Lemma datetime_flatten_payload_type_witness :
  DatetimeHandler.flatten Demo.om (Demo.context true)
    (PObject "datetime.date" [PTuple [PInt 2023; PInt 1; PInt 1]]) Demo.start
  = (Raise TypeError, Demo.start).
Proof.
  apply (datetime_flatten_payload_type Demo.om (Demo.context true)
           _ (PClass "datetime.date") (PInt 2023) [PInt 1; PInt 1]).
  - reflexivity.
  - reflexivity.
  - discriminate.
  - discriminate.
  - discriminate.
Defined.

Lemma simple_flatten_engine_error_witness :
  SimpleReduceHandler.flatten Demo.om (no_dicts true) Demo.account Demo.start
  = (Raise (Raised "PicklingError"),
     {| engine := 3%nat; data := data Demo.start |}).
Proof.
  apply (simple_flatten_engine_error Demo.om (no_dicts true) Demo.account
           (PTuple [PClass "app.Account"; PTuple [PStr "alice"];
                    PDict {["balance" := PInt 10]}])
           [PClass "app.Account"; PTuple [PStr "alice"]]
           (PDict {["balance" := PInt 10]}) []
           Demo.start
           [Demo.tag (PClass "app.Account"); PTuple [PStr "alice"]]
           2%nat).
  - reflexivity.
  - reflexivity.
  - reflexivity.
  - reflexivity.
  - reflexivity.
Defined.

Lemma simple_restore_calls_factory_witness :
  SimpleReduceHandler.restore
    (with_new Demo.om (fun _ _ => Raise ValueError)) (Demo.context true)
    (PDict {[REDUCE := PList [Demo.tag (PClass "collections.OrderedDict");
                              PTuple []]]}) 0%nat
  = (call Demo.om (PClass "collections.OrderedDict") [], 2%nat).
Proof.
  apply (simple_restore_calls_factory Demo.om (Demo.context true) _
           (PList [Demo.tag (PClass "collections.OrderedDict"); PTuple []])
           (Demo.tag (PClass "collections.OrderedDict")) (PTuple [])
           (PClass "collections.OrderedDict") (PTuple []) []
           0%nat 1%nat 2%nat).
  - reflexivity.
  - reflexivity.
  - reflexivity.
  - reflexivity.
  - reflexivity.
Defined.

Lemma simple_non_pair_not_restorable_witness :
  exists st',
    SimpleReduceHandler.flatten Demo.om (Demo.context true)
      Demo.account Demo.start = (Ok TheData, st') /\
    forall t, exists t',
      SimpleReduceHandler.restore Demo.om (Demo.context true)
        (PDict (data st')) t = (Raise ValueError, t').
Proof.
  apply (simple_non_pair_not_restorable Demo.om (Demo.context true)
           Demo.account
           (PTuple [PClass "app.Account"; PTuple [PStr "alice"];
                    PDict {["balance" := PInt 10]}])
           [PClass "app.Account"; PTuple [PStr "alice"];
            PDict {["balance" := PInt 10]}]).
  - reflexivity.
  - reflexivity.
  - reflexivity.
  - simpl. lia.
  - repeat constructor; apply demo_flattens.
  - apply demo_restores_all.
Defined.

Lemma datetime_restore_bad_payload_witness :
  DatetimeHandler.restore Demo.om (Demo.context true)
    (PDict {[REDUCE := PList [Demo.tag (PClass "datetime.date");
                              PList [PInt 2023; PInt 1; PInt 1]]]}) 0%nat
  = (Raise TypeError, 0%nat).
Proof.
  apply (datetime_restore_bad_payload Demo.om (Demo.context true) _
           (PList [Demo.tag (PClass "datetime.date");
                   PList [PInt 2023; PInt 1; PInt 1]])
           (Demo.tag (PClass "datetime.date"))
           (PList [PInt 2023; PInt 1; PInt 1]) (PInt 2023)).
  - reflexivity.
  - reflexivity.
  - reflexivity.
  - discriminate.
  - discriminate.
  - discriminate.
Defined.


Lemma datetime_payloads_distinct_witness : Demo.payload0 = Demo.payload0.
Proof.
  apply (datetime_payloads_distinct Demo.om (Demo.context true)
           Demo.T0 Demo.T0 (PClass "datetime.date") (PClass "datetime.date")
           Demo.payload0 Demo.payload0 [] []
           Demo.start Demo.start TheData TheData
           {| engine := 1%nat;
              data := <[REDUCE :=
                          PTuple [Demo.tag (PClass "datetime.date");
                                  PList [PStr (Base64.encode Demo.payload0)]]]>
                        (data Demo.start) |}
           {| engine := 1%nat;
              data := <[REDUCE :=
                          PTuple [Demo.tag (PClass "datetime.date");
                                  PList [PStr (Base64.encode Demo.payload0)]]]>
                        (data Demo.start) |}).
  - reflexivity.
  - reflexivity.
  - reflexivity.
  - reflexivity.
  - reflexivity.
  - reflexivity.
Defined.

Lemma registered_reduce_handler_round_trip_witness :
  exists h st',
    get (register (registry (2, 7)) "app.Interval" SimpleReduceHandler_class)
      "app.Interval" = Some h /\
    call_flatten h Demo.om (Demo.context true)
      (PObject "app.Interval" [PTuple []]) Demo.start = (Ok TheData, st') /\
    forall t, exists t',
      call_restore h Demo.om (Demo.context true) (returned TheData st') t
      = (Ok (PObject "app.Interval" [PTuple []]), t').
Proof.
  apply (registered_reduce_handler_round_trip Demo.om (Demo.context true)
           (registry (2, 7)) "app.Interval"
           (PObject "app.Interval" [PTuple []]) (PClass "app.Interval") []).
  - reflexivity.
  - reflexivity.
  - now apply demo_round_trips.
  - now apply demo_round_trips.
  - reflexivity.
Defined.

Lemma simple_flatten_string_decomposition_witness :
  exists flat st',
    SimpleReduceHandler.flatten
      {| unicode := unicode Demo.om;
         reduce := fun _ => Ok (PStr "os.sep");
         call := call Demo.om; new := new Demo.om |}
      (Demo.context true) (PObject "app.Constant" []) Demo.start
    = (Ok TheData, st') /\
    data st' !! REDUCE = Some (PList flat) /\
    length flat = String.length "os.sep" /\
    Forall2 (encoded_by (Demo.context true)) (Py.chars "os.sep") flat.
Proof.
  apply simple_flatten_string_decomposition.
  - reflexivity.
  - reflexivity.
  - repeat constructor; apply demo_flattens.
Defined.

Lemma simple_restore_arguments_not_iterable_witness :
  SimpleReduceHandler.restore Demo.om (Demo.context true)
    (PDict {[REDUCE := PList [Demo.tag (PClass "app.Interval"); PNone]]})
    0%nat
  = (Raise TypeError, 2%nat).
Proof.
  apply (simple_restore_arguments_not_iterable Demo.om (Demo.context true) _
           (PList [Demo.tag (PClass "app.Interval"); PNone])
           (Demo.tag (PClass "app.Interval")) PNone
           (PClass "app.Interval") PNone 0%nat 1%nat 2%nat).
  - reflexivity.
  - reflexivity.
  - reflexivity.
  - reflexivity.
  - left. reflexivity.
Defined.

Lemma datetime_visit_order_witness :
  let aware := PObject "datetime.time"
                 [PTuple [PStr Demo.payload0; PObject "app.UTC" [PTuple []]]] in
  exists st',
    DatetimeHandler.flatten Demo.om (recorder true) aware
      {| engine := []; data := data Demo.start |}
    = (Ok TheData, st')
    /\ engine st' = [PObject "app.UTC" [PTuple []]; PClass "datetime.time"]
    /\ snd (DatetimeHandler.restore Demo.om (recorder true)
              (PDict (data st')) [])
       = [PClass "datetime.time"; PObject "app.UTC" [PTuple []]].
Proof.
  intros aware.
  apply (datetime_visit_order Demo.om aware (PClass "datetime.time")
           Demo.payload0 [PObject "app.UTC" [PTuple []]]).
  reflexivity.
Defined.
